(** * appModules/soffice.py: cell coordinates and text attributes

    A shallow embedding of the algorithmic parts of NVDA's app module for
    LibreOffice / OpenOffice (Symphony):

    - [gridCoordStringToNumbers], which turns a cell label such as
      ["AB23"] into the pair (row, column);
    - [SymphonyTextInfo._getFormatFieldAndOffsets], which turns the
      IAccessible2 text attributes at an offset into a format field;
    - [SymphonyTable.getSelectedItemsCount].

    Python values are modelled as follows.  A [str] is a [string] whose
    characters are the code points below 256 (Latin-1), so a character is an
    [ascii] and its code point is [Py.ord]; the builtins [str.isdigit],
    [str.upper], [ord] and [int] are the ones of Python on such strings.
    [str.upper] may leave that range and may give two characters, so its
    result is a list of code points.  An [int] is a [Z]; a [dict] is a
    [gmap]; an exception is a value of [exn] carried by [result]. *)

From Stdlib Require Import ZArith Ascii String List Lia Bool DecimalString.
From stdpp Require Import base option list gmap strings fin_maps.

Local Open Scope Z_scope.

(** ** Exceptions *)

Inductive exn : Set :=
  | ValueError
  | TypeError
  | AttributeError
  | COMError.

Inductive result (A : Type) : Type :=
  | Ok (a : A)
  | Raise (e : exn).

Arguments Ok {A} a.
Arguments Raise {A} e.

#[global] Instance result_ret : MRet result := fun A a => Ok a.

#[global] Instance result_bind : MBind result := fun A B k r =>
  match r with
  | Ok a => k a
  | Raise e => Raise e
  end.

Definition returns {A : Type} (r : result A) : Prop := exists a, r = Ok a.
Definition raises {A : Type} (r : result A) : Prop := exists e, r = Raise e.

(** A call into a COM interface either returns or raises [COMError];
    [None] stands for the latter. *)
Definition call {A : Type} (outcome : option A) : result A :=
  match outcome with
  | Some a => Ok a
  | None => Raise COMError
  end.

(** [try: body  except COMError: handler] *)
Definition except_COMError {A : Type} (body handler : result A) : result A :=
  match body with
  | Raise COMError => handler
  | r => r
  end.

(** ** Characters and the builtins used on them

    The builtins on the characters below 256: [str.isdigit] accepts the
    ten decimal digits and the superscripts two, three and one; [str.upper]
    acts on [a] to [z] and on the small letters from 0xe0 to 0xfe, sends the
    micro sign and the y with diaeresis out of the range and the sharp s to
    two letters S. *)

Module Py.

(** The code point of a character. *)
Definition ord (c : ascii) : Z := Z.of_N (N_of_ascii c).

Definition chr (z : Z) : ascii := ascii_of_N (Z.to_N z).

(** [s.isascii()] *)
Definition isascii (s : string) : bool :=
  forallb (fun c => ord c <? 128) (list_ascii_of_string s).

(** The decimal digits, [0] to [9]. *)
Definition isdecimal (c : ascii) : bool := (48 <=? ord c) && (ord c <=? 57).

(** [ch.isdigit()] *)
Definition isdigit (c : ascii) : bool :=
  isdecimal c || (ord c =? 178) || (ord c =? 179) || (ord c =? 185).

(** [ch.upper()], as the code points of the string it gives. *)
Definition upper (c : ascii) : list Z :=
  let n := ord c in
  if (97 <=? n) && (n <=? 122) then [n - 32]
  else if n =? 181 then [924]
  else if n =? 223 then [83; 83]
  else if (224 <=? n) && (n <=? 254) && negb (n =? 247) then [n - 32]
  else if n =? 255 then [376]
  else [n].

(** [ord(s)] for a string given by its code points: [TypeError] unless the
    string has one character. *)
Definition ord_string (s : list Z) : result Z :=
  match s with
  | [n] => Ok n
  | _ => Raise TypeError
  end.

(** White space in the sense of [int()], which strips it from both ends of
    its argument: tab, line feed, vertical tab, form feed, carriage return
    and space, and of the characters from 127 on the next line 0x85 and the
    no-break space 0xa0. *)
Definition isspace (c : ascii) : bool :=
  ((9 <=? ord c) && (ord c <=? 13)) || (ord c =? 32) || (ord c =? 133) || (ord c =? 160).

Fixpoint lstrip (s : list ascii) : list ascii :=
  match s with
  | [] => []
  | c :: s' => if isspace c then lstrip s' else s
  end.

Definition strip (s : list ascii) : list ascii := rev (lstrip (rev (lstrip s))).

(** The digits of a base-10 literal: decimal digits, where single
    underscores may separate two digits.  [prev] tells whether the
    character before was a digit. *)
Fixpoint int_digits (prev : bool) (acc : Z) (s : list ascii) : option Z :=
  match s with
  | [] => if prev then Some acc else None
  | c :: s' =>
      if isdecimal c then int_digits true (10 * acc + (ord c - 48)) s'
      else if Ascii.eqb c "_" && prev then int_digits false acc s'
      else None
  end.

(** [int(s)] for a string [s]: [ValueError] unless [s] is, between white
    space, an optional sign followed by a base-10 literal. *)
Definition int (s : list ascii) : result Z :=
  let body := strip s in
  let signed :=
    match body with
    | c :: rest =>
        if Ascii.eqb c "-" then Z.opp <$> int_digits false 0 rest
        else if Ascii.eqb c "+" then int_digits false 0 rest
        else int_digits false 0 body
    | [] => None
    end in
  match signed with
  | Some z => Ok z
  | None => Raise ValueError
  end.

(** [s[i:]] and [s[0:i]], where the index may be [None]. *)
Definition slice_from {A : Type} (s : list A) (i : option nat) : list A :=
  match i with
  | Some n => drop n s
  | None => s
  end.

Definition slice_to {A : Type} (s : list A) (i : option nat) : list A :=
  match i with
  | Some n => take n s
  | None => s
  end.

End Py.

(** ** gridCoordStringToNumbers *)

(** The first loop: [index] counts the characters of the reversed label
    already seen. *)
Fixpoint rowStartLoop (len index : nat) (reversed : list ascii) : option nat :=
  match reversed with
  | [] => None
  | ch :: rest =>
      if negb (Py.isdigit ch) then Some (len - index)%nat
      else rowStartLoop len (S index) rest
  end.

(** The second loop, with its accumulator [colNum]; [ord] raises
    [TypeError] on a character whose upper case is not one character. *)
Fixpoint colLoop (index : nat) (reversed : list ascii) (colNum : Z) : result Z :=
  match reversed with
  | [] => Ok colNum
  | ch :: rest =>
      code ← Py.ord_string (Py.upper ch);
      colLoop (S index) rest (colNum + (code - Py.ord "A" + 1) * 26 ^ Z.of_nat index)
  end.

(** The guard of line 22: true when the label is refused. *)
Definition badCoordString (cs : list ascii) : bool :=
  match cs with [] => true | _ => false end
  || (length cs <? 2)%nat
  || existsb (Ascii.eqb " ") cs
  || match head cs with Some c => Py.isdigit c | None => false end
  || negb (match last cs with Some c => Py.isdigit c | None => false end).

Definition gridCoordStringToNumbers (coordString : string) : result (Z * Z) :=
  let cs := list_ascii_of_string coordString in
  if badCoordString cs then Raise ValueError
  else
    let coordStringRowStartIndex := rowStartLoop (length cs) 0 (rev cs) in
    rowNum ← Py.int (Py.slice_from cs coordStringRowStartIndex);
    colNum ← colLoop 0 (rev (Py.slice_to cs coordStringRowStartIndex)) 0;
    Ok (rowNum, colNum).

(** ** Format fields *)

(** [colors.RGB], a named tuple of three integers. *)
Record RGB : Set := mkRGB { red : Z; green : Z; blue : Z }.

(** The values a format field holds: the strings and sub-dictionaries of
    the IAccessible2 attributes, and the booleans, colours and [None] that
    the derivations store. *)
Inductive value : Type :=
  | VStr (s : string)
  | VDict (d : gmap string string)
  | VBool (b : bool)
  | VColor (c : RGB)
  | VNone.

Abbreviation FormatField := (gmap string value).

(** What the function takes from outside this file: the builtin [float]
    with its comparison against an integer, the text of a dictionary under
    [%s], [colors.RGB.fromString] and [IAccessibleHandler.splitIA2Attribs]. *)
Class Externals : Type := {
  float : Type;
  float_of_str : string -> option float;   (* [None]: [ValueError] *)
  float_gt : float -> Z -> bool;
  str_of_dict : gmap string string -> string;
  RGB_fromString : value -> result RGB;
  splitIA2Attribs : string -> FormatField;
}.

(** The text object [obj] and the fields of [self] that are read. *)
Record TextObject : Type := {
  attributes : Z -> option (Z * Z * string);
  hyperlinkIndex : Z -> option Z;
  hasFocus : bool;
  docAttribs : option FormatField;          (* [None]: [AttributeError] *)
  _startOffset : Z;
  _endOffset : Z;
}.

Section FormatFields.

Context `{Externals}.

(** Truth value of an object. *)
Definition truthy (v : value) : bool :=
  match v with
  | VStr s => negb (String.eqb s "")
  | VDict d => negb (bool_decide (d = ∅))
  | VBool b => b
  | VColor _ => true
  | VNone => false
  end.

(** [v == s] for a string [s]. *)
Definition eq_str (v : value) (s : string) : bool :=
  match v with
  | VStr s' => String.eqb s' s
  | _ => false
  end.

(** [int(v)] *)
Definition int_of (v : value) : result Z :=
  match v with
  | VStr s => Py.int (list_ascii_of_string s)
  | VBool b => Ok (if b then 1 else 0)
  | _ => Raise TypeError
  end.

(** [float(v) > 100]; a boolean converts to 0.0 or 1.0. *)
Definition float_gt_100 (v : value) : result bool :=
  match v with
  | VStr s =>
      match float_of_str s with
      | Some x => Ok (float_gt x 100)
      | None => Raise ValueError
      end
  | VBool _ => Ok false
  | _ => Raise TypeError
  end.

(** ["%spt" % v]; a tuple of three is two arguments too many. *)
Definition format_pt (v : value) : result string :=
  match v with
  | VStr s => Ok (s +:+ "pt")
  | VDict d => Ok (str_of_dict d +:+ "pt")
  | VBool b => Ok ((if b then "True" else "False") +:+ "pt")
  | VNone => Ok "Nonept"
  | VColor _ => Raise TypeError
  end.

(** [numbering.get("NumberingPrefix") or numbering.get("BulletChar")] *)
Definition numberingPrefix (numbering : value) : result value :=
  match numbering with
  | VDict d =>
      match d !! "NumberingPrefix" with
      | Some p => if negb (String.eqb p "") then Ok (VStr p)
                  else Ok (from_option VStr VNone (d !! "BulletChar"))
      | None => Ok (from_option VStr VNone (d !! "BulletChar"))
      end
  | _ => Raise AttributeError
  end.

(** Lines 100 to 110. *)
Definition deriveTextPosition (formatField : FormatField) : result FormatField :=
  match formatField !! "CharEscapement" with
  | Some v =>
      escapement ← int_of v;
      let textPos :=
        if escapement <? 0 then "sub"
        else if escapement >? 0 then "super"
        else "baseline" in
      Ok (<["text-position" := VStr textPos]> formatField)
  | None => Ok formatField
  end.

(** Lines 111 to 114. *)
Definition deriveFontName (formatField : FormatField) : result FormatField :=
  match formatField !! "CharFontName" with
  | Some v => Ok (<["font-name" := v]> formatField)
  | None => Ok formatField
  end.

(** Lines 115 to 118. *)
Definition deriveFontSize (formatField : FormatField) : result FormatField :=
  match formatField !! "CharHeight" with
  | Some v => size ← format_pt v; Ok (<["font-size" := VStr size]> formatField)
  | None => Ok formatField
  end.

(** Lines 119 to 122. *)
Definition deriveItalic (formatField : FormatField) : result FormatField :=
  match formatField !! "CharPosture" with
  | Some v => Ok (<["italic" := VBool (eq_str v "2")]> formatField)
  | None => Ok formatField
  end.

(** Lines 123 to 126. *)
Definition deriveStrikethrough (formatField : FormatField) : result FormatField :=
  match formatField !! "CharStrikeout" with
  | Some v => Ok (<["strikethrough" := VBool (eq_str v "1")]> formatField)
  | None => Ok formatField
  end.

(** Lines 127 to 135. *)
Definition deriveUnderline (formatField : FormatField) : result FormatField :=
  match formatField !! "CharUnderline" with
  | Some underline =>
      if eq_str underline "10"
      then Ok (<["invalid-spelling" := VBool true]> formatField)
      else Ok (<["underline" := VBool (negb (eq_str underline "0"))]> formatField)
  | None => Ok formatField
  end.

(** Lines 136 to 139. *)
Definition deriveBold (formatField : FormatField) : result FormatField :=
  match formatField !! "CharWeight" with
  | Some v => bold ← float_gt_100 v; Ok (<["bold" := VBool bold]> formatField)
  | None => Ok formatField
  end.

(** Lines 140 to 145 with [source := "CharColor"] and [target := "color"],
    lines 146 to 151 with ["CharBackColor"] and ["background-color"]. *)
Definition deriveColor (source target : string) (formatField : FormatField)
  : result FormatField :=
  let color := formatField !! source in
  let formatField := delete source formatField in
  match color with
  | Some c =>
      if truthy c
      then rgb ← RGB_fromString c; Ok (<[target := VColor rgb]> formatField)
      else Ok formatField
  | None => Ok formatField
  end.

(** Lines 153 to 158. *)
Definition deriveLink (obj : TextObject) (offset : Z) (formatField : FormatField)
  : result FormatField :=
  except_COMError
    (index ← call (hyperlinkIndex obj offset);
     if negb (index =? -1) then Ok (<["link" := VBool true]> formatField)
     else Ok formatField)
    (Ok formatField).

(** Lines 160 to 164. *)
Definition deriveLinePrefix (offset : Z) (formatField : FormatField)
  : result FormatField :=
  if offset =? 0 then
    match formatField !! "Numbering" with
    | Some numbering =>
        if truthy numbering
        then prefix ← numberingPrefix numbering;
             Ok (<["line-prefix" := prefix]> formatField)
        else Ok formatField
    | None => Ok formatField
    end
  else Ok formatField.

(** Lines 166 to 182. *)
Definition deriveCaretPosition (obj : TextObject) (formatField : FormatField)
  : FormatField :=
  if hasFocus obj then
    match docAttribs obj with
    | None => formatField
    | Some attribs =>
        let formatField :=
          match attribs !! "page-number" with
          | Some v => <["page-number" := v]> formatField
          | None => formatField
          end in
        match attribs !! "line-number" with
        | Some v => <["line-number" := v]> formatField
        | None => formatField
        end
    end
  else formatField.

(** Lines 100 to 182: what is derived from the attributes once they are in
    the format field.  The specification calls it [parse]; its context is
    the text object and the offset. *)
Definition parse (rawAttributes : FormatField) (obj : TextObject) (offset : Z)
  : result FormatField :=
  formatField ← deriveTextPosition rawAttributes;
  formatField ← deriveFontName formatField;
  formatField ← deriveFontSize formatField;
  formatField ← deriveItalic formatField;
  formatField ← deriveStrikethrough formatField;
  formatField ← deriveUnderline formatField;
  formatField ← deriveBold formatField;
  formatField ← deriveColor "CharColor" "color" formatField;
  formatField ← deriveColor "CharBackColor" "background-color" formatField;
  formatField ← deriveLink obj offset formatField;
  formatField ← deriveLinePrefix offset formatField;
  Ok (deriveCaretPosition obj formatField).

(** The derivations a successful [parse] went through. *)
Inductive parse_trace (rawAttributes : FormatField) (obj : TextObject) (offset : Z)
    (out : FormatField) : Prop :=
  | ParseTrace (ff1 ff2 ff3 ff4 ff5 ff6 ff7 ff8 ff9 ff10 ff11 : FormatField)
      (step1 : deriveTextPosition rawAttributes = Ok ff1)
      (step2 : deriveFontName ff1 = Ok ff2)
      (step3 : deriveFontSize ff2 = Ok ff3)
      (step4 : deriveItalic ff3 = Ok ff4)
      (step5 : deriveStrikethrough ff4 = Ok ff5)
      (step6 : deriveUnderline ff5 = Ok ff6)
      (step7 : deriveBold ff6 = Ok ff7)
      (step8 : deriveColor "CharColor" "color" ff7 = Ok ff8)
      (step9 : deriveColor "CharBackColor" "background-color" ff8 = Ok ff9)
      (step10 : deriveLink obj offset ff9 = Ok ff10)
      (step11 : deriveLinePrefix offset ff10 = Ok ff11)
      (step12 : out = deriveCaretPosition obj ff11).

(** A mapping from strings to strings, as the specification has it. *)
Definition strings_only (rawAttributes : FormatField) : Prop :=
  forall k v, rawAttributes !! k = Some v -> exists s, v = VStr s.

(** Lines 97 and 98: [formatField] starts empty. *)
Definition updateFromString (attribsString : string) : FormatField :=
  if negb (String.eqb attribsString "") then splitIA2Attribs attribsString else ∅.

(** Lines 92 to 96. *)
Definition attribsStringAt (obj : TextObject) (offset : Z) (attribsString : string)
  : result string :=
  if String.eqb attribsString "" && (offset >? 0) then
    except_COMError
      (previous ← call (attributes obj (offset - 1)); Ok (previous.2))
      (Ok attribsString)
  else Ok attribsString.

Definition _getFormatFieldAndOffsets (obj : TextObject) (offset : Z)
  : result (FormatField * (Z * Z)) :=
  fetched ← except_COMError
    (run ← call (attributes obj offset); Ok (Some run))
    (Ok None);
  match fetched with
  | None => Ok (∅, (_startOffset obj, _endOffset obj))
  | Some (startOffset, endOffset, attribsString) =>
      attribsString ← attribsStringAt obj offset attribsString;
      formatField ← parse (updateFromString attribsString) obj offset;
      Ok (formatField, (startOffset, endOffset))
  end.

End FormatFields.

(** ** SymphonyTable.getSelectedItemsCount *)

(** The table object: the outcome of [QueryInterface(IA2.IAccessibleTable2)]
    and, on the interface it returns, of [nSelectedCells]. *)
Record TableObject : Type := {
  IAccessibleTable2 : Type;
  QueryInterface : option IAccessibleTable2;
  nSelectedCells : IAccessibleTable2 -> option Z;
}.

Definition getSelectedItemsCount (self : TableObject) : result Z :=
  except_COMError
    (iaTableObject ← call (QueryInterface self);
     count ← call (nSelectedCells self iaTableObject);
     if count >? 0 then Ok count else Ok 1)
    (Ok 1).

(** A table with three selected cells. *)
Definition exampleTable : TableObject := {|
  IAccessibleTable2 := unit;
  QueryInterface := Some tt;
  nSelectedCells _ := Some 3;
|}.

(** The names under which the derivations store their results. *)
Definition derivedKeys : list string :=
  ["text-position"; "font-name"; "font-size"; "italic"; "strikethrough";
   "invalid-spelling"; "underline"; "bold"; "color"; "background-color";
   "link"; "line-prefix"; "page-number"; "line-number"].

(** ** The specification's reading of a cell label

    These definitions follow the words of the specification, not the code:
    the shape a label must have, the maximal trailing run of digits read in
    base 10 and the prefix before it read as a bijective base-26 numeral. *)

Module Spec.

Definition digits : list ascii :=
  ["0"; "1"; "2"; "3"; "4"; "5"; "6"; "7"; "8"; "9"]%char.

Definition is_digit (c : ascii) : bool := existsb (Ascii.eqb c) digits.

Definition is_upper (c : ascii) : bool := (Py.ord "A" <=? Py.ord c) && (Py.ord c <=? Py.ord "Z").

Definition is_lower (c : ascii) : bool := (Py.ord "a" <=? Py.ord c) && (Py.ord c <=? Py.ord "z").

Definition is_letter (c : ascii) : bool := is_upper c || is_lower c.

(** A letter in its other case; any other character as it is. *)
Definition swapcase (c : ascii) : ascii :=
  if is_lower c then Py.chr (Py.ord c - Py.ord "a" + Py.ord "A")
  else if is_upper c then Py.chr (Py.ord c - Py.ord "A" + Py.ord "a")
  else c.

(** Non-empty, no space, does not start with a digit, ends with a digit. *)
Definition valid_chars (cs : list ascii) : bool :=
  negb (bool_decide (cs = []))
  && negb (existsb (Ascii.eqb " ") cs)
  && negb (from_option is_digit false (head cs))
  && from_option is_digit false (last cs).

Definition valid_label (label : string) : bool :=
  valid_chars (list_ascii_of_string label).

Fixpoint take_while {A : Type} (p : A -> bool) (l : list A) : list A :=
  match l with
  | [] => []
  | x :: l' => if p x then x :: take_while p l' else []
  end.

(** The maximal trailing run of digit characters and what stands before. *)
Definition trailing_digits (cs : list ascii) : list ascii :=
  rev (take_while is_digit (rev cs)).

Definition letter_prefix (cs : list ascii) : list ascii :=
  take (length cs - length (trailing_digits cs)) cs.

(** A run of digits as a base-10 integer; leading zeros are allowed. *)
Definition base10 (ds : list ascii) : Z :=
  fold_left (fun n d => 10 * n + (Py.ord d - Py.ord "0")) ds 0.

(** The letters in their order, in both cases. *)
Definition alphabet : list ascii := list_ascii_of_string "ABCDEFGHIJKLMNOPQRSTUVWXYZ".

Definition small_alphabet : list ascii := list_ascii_of_string "abcdefghijklmnopqrstuvwxyz".

(** The place of a character in a list, counted from 1. *)
Fixpoint place (c : ascii) (l : list ascii) : option Z :=
  match l with
  | [] => None
  | x :: l' => if Ascii.eqb c x then Some 1 else Z.succ <$> place c l'
  end.

(** The value of a letter, without regard to its case: its place in the
    alphabet, so that [A] is 1 and [Z] is 26 (the [letter - 'A' + 1] of the
    specification).  What is no letter has no value; it counts as 0. *)
Definition letterValue (c : ascii) : Z :=
  match place c alphabet, place c small_alphabet with
  | Some n, _ => n
  | None, Some n => n
  | None, None => 0
  end.

(** The sum of [letterValue * 26 ^ position] over the letters read from
    right to left, the rightmost at position 0. *)
Fixpoint weighted (position : nat) (rightToLeft : list ascii) : Z :=
  match rightToLeft with
  | [] => 0
  | c :: rest => letterValue c * 26 ^ Z.of_nat position + weighted (S position) rest
  end.

Definition bijective26 (prefix : list ascii) : Z := weighted 0 (rev prefix).

(** The same numeral read from left to right. *)
Definition numeral26 (prefix : list ascii) : Z :=
  fold_left (fun n c => 26 * n + letterValue c) prefix 0.

Definition row (label : string) : Z :=
  base10 (trailing_digits (list_ascii_of_string label)).

Definition column (label : string) : Z :=
  bijective26 (letter_prefix (list_ascii_of_string label)).

(** One label is the other with some letters changed between upper and
    lower case. *)
Definition case_variant (c c' : ascii) : Prop := c' = c \/ c' = swapcase c.

Definition case_changed (label label' : string) : Prop :=
  Forall2 case_variant (list_ascii_of_string label) (list_ascii_of_string label').

End Spec.

(** ** What the guard and the first loop see

    The code tests characters with [str.isdigit], which accepts more than
    the ten digits of the specification.  The shape of a label, the run of
    digits at its end and the characters before that run are therefore
    stated for any test [digit]: with [Spec.is_digit] they are
    [Spec.valid_chars], [Spec.trailing_digits] and [Spec.letter_prefix]. *)

Definition shaped (digit : ascii -> bool) (cs : list ascii) : bool :=
  negb (bool_decide (cs = []))
  && negb (existsb (Ascii.eqb " ") cs)
  && negb (from_option digit false (head cs))
  && from_option digit false (last cs).

Definition trailing (digit : ascii -> bool) (cs : list ascii) : list ascii :=
  rev (Spec.take_while digit (rev cs)).

Definition leading (digit : ascii -> bool) (cs : list ascii) : list ascii :=
  take (length cs - length (trailing digit cs)) cs.

(** The sharp s, U+00DF, whose upper case is [SS]; the superscript two,
    U+00B2, which [str.isdigit] accepts and [int] refuses. *)
Definition sharp_s : ascii := "223".

Definition superscript_two : ascii := "178".

(** Three labels of the right shape: a sharp s before the row 1, a street
    name with a sharp s before the row 1, and a superscript two before the
    row 1. *)
Definition sharp_s_label : string := String sharp_s "1".

Definition street_label : string := "Stra" +:+ String sharp_s "e1".

Definition superscript_label : string := String superscript_two "1".

(** ** Worked examples

    The examples on format fields need the outside functions.  Here
    [float] is taken on integer literals, which is all the examples use,
    no example carries a colour or a sub-dictionary, and attribute strings
    are split at [;] and [:] (no escaped character occurs in them). *)

Fixpoint splitAt (sep : ascii) (s : string) : string * option string :=
  match s with
  | EmptyString => (EmptyString, None)
  | String c rest =>
      if Ascii.eqb c sep then (EmptyString, Some rest)
      else let '(before, after) := splitAt sep rest in (String c before, after)
  end.

Fixpoint splitItems (fuel : nat) (s : string) : list (string * value) :=
  match fuel with
  | O => []
  | S fuel' =>
      let '(item, rest) := splitAt ";" s in
      let '(key, val) := splitAt ":" item in
      let here := match val with Some v => [(key, VStr v)] | None => [] end in
      match rest with
      | Some rest' => here ++ splitItems fuel' rest'
      | None => here
      end
  end.

Definition splitPlain (s : string) : FormatField :=
  list_to_map (rev (splitItems (S (String.length s)) s)).

Definition exampleExternals : Externals := {|
  float := Z;
  float_of_str s :=
    match Py.int (list_ascii_of_string s) with Ok z => Some z | Raise _ => None end;
  float_gt x n := n <? x;
  str_of_dict _ := "{}";
  RGB_fromString _ := Raise ValueError;
  splitIA2Attribs := splitPlain;
|}.

(** A paragraph whose first five characters are bold; nothing is reported
    for the run after them.  It has no hyperlink and no focus. *)
Definition exampleParagraph : TextObject := {|
  attributes offset :=
    if offset <? 5 then Some (0, 5, "CharWeight:150;CharPosture:0") else Some (5, 9, "");
  hyperlinkIndex _ := Some (-1);
  hasFocus := false;
  docAttribs := None;
  _startOffset := 0;
  _endOffset := 0;
|}.

(** * The rest of the module

    The classes of the module that do more than declare attributes.  Their
    methods go through further exceptions: [IndexError] for an index out of
    range and [AssertionError] for a failed [assert]. *)

Inductive exception : Set :=
  | Builtin (e : exn)
  | IndexError
  | AssertionError.

Inductive outcome (A : Type) : Type :=
  | Returned (a : A)
  | Raised (e : exception).

Arguments Returned {A} a.
Arguments Raised {A} e.

#[global] Instance outcome_ret : MRet outcome := fun A a => Returned a.

#[global] Instance outcome_bind : MBind outcome := fun A B k r =>
  match r with
  | Returned a => k a
  | Raised e => Raised e
  end.

Definition lift {A : Type} (r : result A) : outcome A :=
  match r with
  | Ok a => Returned a
  | Raise e => Raised (Builtin e)
  end.

(** [try: body  except ValueError: handler] *)
Definition except_ValueError {A : Type} (body handler : outcome A) : outcome A :=
  match body with
  | Raised (Builtin ValueError) => handler
  | r => r
  end.

Module PyStr.

(** [s.startswith(prefix)] *)
Fixpoint startswith (prefix s : list ascii) : bool :=
  match prefix, s with
  | [], _ => true
  | _ :: _, [] => false
  | p :: prefix', c :: s' => Ascii.eqb p c && startswith prefix' s'
  end.

(** [s[-k]] for [k] at least 1 *)
Definition item_from_end (s : list ascii) (k : nat) : outcome ascii :=
  if (k <=? length s)%nat then
    match s !! (length s - k)%nat with
    | Some c => Returned c
    | None => Raised IndexError
    end
  else Raised IndexError.

(** [s[i]] for [i] at least 0 *)
Definition item {A : Type} (s : list A) (i : Z) : outcome A :=
  match s !! Z.to_nat i with
  | Some x => Returned x
  | None => Raised IndexError
  end.

(** [s[5:-1]] *)
Definition slice_5_to_last (s : list ascii) : list ascii :=
  drop 5 (take (length s - 1) s).

(** [str(n)] and ['{}'.format(n)] for an integer. *)
Definition of_int (n : Z) : string := NilZero.string_of_int (Z.to_int n).

(** ['{}'.format(s)] for a string or [None]. *)
Definition of_name (s : option string) : string := default "None" s.

End PyStr.

(** ** JAB_OOTableCell

    [name] is what [super().name] gives: a string or [None]. *)

Module JAB_OOTableCell.

(** [name and name.startswith('Cell') and name[-2].isdigit()] *)
Definition isCellName (name : option string) : outcome bool :=
  match name with
  | None => Returned false
  | Some name =>
      let cs := list_ascii_of_string name in
      if negb (String.eqb name "") && PyStr.startswith (list_ascii_of_string "Cell") cs
      then c ← PyStr.item_from_end cs 2; Returned (Py.isdigit c)
      else Returned false
  end.

Definition _get_name (name : option string) : outcome (option string) :=
  cell ← isCellName name;
  Returned (if cell : bool then None else name).

Definition _get_cellCoordsText (name : option string) : outcome (option string) :=
  cell ← isCellName name;
  Returned
    (if cell : bool
     then string_of_list_ascii <$> (PyStr.slice_5_to_last <$> (list_ascii_of_string <$> name))
     else None).

(** [gridCoordStringToNumbers] on what [cellCoordsText] gives: [None] is
    refused by [not coordString] as the empty string is. *)
Definition gridCoord (cellCoordsText : option string) : result (Z * Z) :=
  match cellCoordsText with
  | Some coordString => gridCoordStringToNumbers coordString
  | None => Raise ValueError
  end.

Definition _get_rowNumber (name : option string) : outcome Z :=
  except_ValueError
    (cellCoordsText ← _get_cellCoordsText name;
     numbers ← lift (gridCoord cellCoordsText);
     Returned numbers.1)
    (Returned 0).

Definition _get_columnNumber (name : option string) : outcome Z :=
  except_ValueError
    (cellCoordsText ← _get_cellCoordsText name;
     numbers ← lift (gridCoord cellCoordsText);
     Returned numbers.2)
    (Returned 0).

End JAB_OOTableCell.

(** ** SymphonyTextInfo: lines and story length

    [super_getLineOffsets] and [super_getStoryLength] stand for the methods
    of the base class. *)

Definition _getLineOffsets (super_getLineOffsets : Z -> Z * Z) (offset : Z) : Z * Z :=
  let '(start, end_) := super_getLineOffsets offset in
  if (offset =? 0) && (start =? 0) && (end_ =? 0) then (0, 1)
  else (start, end_).

Definition _getStoryLength (super_getStoryLength : Z) : Z :=
  Z.max super_getStoryLength 1.

(** ** SymphonyText._get_positionInfo

    A position info maps names such as [level] to integers;
    [super_positionInfo] is what the base class reports. *)

Definition _get_positionInfo (IA2Attributes : gmap string value)
    (super_positionInfo : gmap string Z) : result (gmap string Z) :=
  match IA2Attributes !! "heading-level" with
  | Some level =>
      if truthy level
      then n ← int_of level; Ok {[ "level" := n ]}
      else Ok super_positionInfo
  | None => Ok super_positionInfo
  end.

(** ** SymphonyTableCell._get_states

    [controlTypes.State] has many members; the six the module names are
    kept apart, the others are numbered. *)

Inductive State : Set :=
  | MULTILINE
  | EDITABLE
  | SELECTED
  | FOCUSED
  | SELECTABLE
  | HASFORMULA
  | OtherState (n : positive).

#[global] Instance State_eq_dec : EqDecision State.
Proof. solve_decision. Defined.

Definition State_code (s : State) : Z :=
  match s with
  | MULTILINE => 0
  | EDITABLE => 1
  | SELECTED => 2
  | FOCUSED => 3
  | SELECTABLE => 4
  | HASFORMULA => 5
  | OtherState n => Z.pos n + 5
  end.

Definition State_of_code (z : Z) : State :=
  if z =? 0 then MULTILINE
  else if z =? 1 then EDITABLE
  else if z =? 2 then SELECTED
  else if z =? 3 then FOCUSED
  else if z =? 4 then SELECTABLE
  else if z =? 5 then HASFORMULA
  else OtherState (Z.to_pos (z - 5)).

#[global] Instance State_countable : Countable State.
Proof.
  apply (inj_countable' State_code State_of_code).
  intros [| | | | | |n]; try reflexivity.
  unfold State_code, State_of_code. pose proof (Pos2Z.is_pos n).
  repeat match goal with
         | |- context [?a =? ?b] => destruct (Z.eqb_spec a b); [lia|]
         end.
  replace (Z.pos n + 5 - 5) with (Z.pos n) by lia. reflexivity.
Defined.

Module SymphonyTableCell.

(** [states] is what [super().states] gives, [IA2Attributes] the
    IAccessible2 attributes of the cell. *)
Definition _get_states (states : gset State) (IA2Attributes : gmap string value)
  : gset State :=
  let states := states ∖ {[MULTILINE]} in
  let states := states ∖ {[EDITABLE]} in
  let states :=
    if bool_decide (SELECTED ∉ states)
       && bool_decide (({[FOCUSED; SELECTABLE]} : gset State) ⊆ states)
    then states ∪ {[SELECTED]}
    else states in
  match IA2Attributes !! "Formula" with
  | Some formula => if truthy formula then states ∪ {[HASFORMULA]} else states
  | None => states
  end.

End SymphonyTableCell.

(** ** SymphonyTable: announcing the selected cells

    What is printed and what is spoken, in order, and the class attribute
    [last_selection]: the empty tuple ([None] here) or the names of the
    first and last cell of the selection announced last. *)

Inductive event : Set :=
  | Print (line : string)
  | Speak (message : string).

Record world : Set := {
  last_selection : option (option string * option string);
  output : list event;
}.

(** A call either returns or raises, and both leave a world behind. *)
Definition M (A : Type) : Type := world -> outcome A * world.

#[global] Instance M_ret : MRet M := fun A a w => (Returned a, w).

#[global] Instance M_bind : MBind M := fun A B k m w =>
  match m w with
  | (Returned a, w') => k a w'
  | (Raised e, w') => (Raised e, w')
  end.

Definition raise {A : Type} (e : exception) : M A := fun w => (Raised e, w).

(** A call into a COM interface. *)
Definition com {A : Type} (outcome : option A) : M A :=
  match outcome with
  | Some a => mret a
  | None => raise (Builtin COMError)
  end.

Definition print (line : string) : M unit := fun w =>
  (Returned tt, {| last_selection := last_selection w; output := output w ++ [Print line] |}).

Definition speakMessage (message : string) : M unit := fun w =>
  (Returned tt, {| last_selection := last_selection w; output := output w ++ [Speak message] |}).

Definition get_last_selection : M (option (option string * option string)) := fun w =>
  (Returned (last_selection w), w).

Definition set_last_selection (selection : option (option string * option string))
  : M unit := fun w =>
  (Returned tt, {| last_selection := selection; output := output w |}).

(** What has been spoken so far. *)
Definition spoken (w : world) : list string :=
  omap (fun e => match e with Speak message => Some message | Print _ => None end)
    (output w).

Module SymphonyTable.

(** The [IAccessibleTableCell] interface of a cell, and on it the name
    that [QueryInterface(IA2.IAccessible2).accName(CHILDID_SELF)] gives;
    [None] is [COMError]. *)
Record IAccessibleTableCell : Set := {
  columnIndex : option Z;
  rowIndex : option Z;
  accName : option (option string);
}.

(** A selected cell: the outcome of [QueryInterface(IA2.IAccessibleTableCell)]. *)
Record Cell : Set := {
  tableCell : option IAccessibleTableCell;
}.

Record IAccessibleTable2 : Set := {
  selectedCells : option (list Cell * Z);
  nSelectedCells : option Z;
}.

(** The table: [None] when it has no attribute [IAccessibleTable2Object]. *)
Record Table : Set := {
  IAccessibleTable2Object : option IAccessibleTable2;
}.

(** The name of a selected cell, after printing its indices. *)
Definition cellName (which : string) (cell : Cell) : M (option string) :=
  iaTableCellObject ← com (tableCell cell);
  column ← com (columnIndex iaTableCellObject);
  row ← com (rowIndex iaTableCellObject);
  _ ← print (which +:+ ", indices: " +:+ PyStr.of_int column +:+ ", "
             +:+ PyStr.of_int row);
  com (accName iaTableCellObject).

Definition announce_selected_cells (self : Table) : M unit :=
  match IAccessibleTable2Object self with
  | None => mret tt
  | Some table =>
      selection ← com (selectedCells table);
      let cells := selection.1 in
      let nSelectedCellCount := selection.2 in
      again ← com (nSelectedCells table);
      if negb (nSelectedCellCount =? again) then raise AssertionError
      else if nSelectedCellCount >? 1 then
        first_cell ← (fun w => (PyStr.item cells 0, w));
        first_cell_name ← cellName "first_cell" first_cell;
        last_cell ← (fun w => (PyStr.item cells (nSelectedCellCount - 1), w));
        last_cell_name ← cellName "last_cell" last_cell;
        let current_selection := Some (first_cell_name, last_cell_name) in
        last ← get_last_selection;
        if negb (bool_decide (current_selection = last)) then
          _ ← speakMessage ("selected cells: " +:+ PyStr.of_name first_cell_name
                            +:+ " to " +:+ PyStr.of_name last_cell_name);
          set_last_selection current_selection
        else mret tt
      else mret tt
  end.

(** [super_event] is the handler of the base class. *)
Definition event_selectionWithIn {A : Type} (self : Table) (super_event : M A) : M A :=
  _ ← print "SELECTION_WITHIN";
  _ ← announce_selected_cells self;
  super_event.

End SymphonyTable.

(** The handlers of [SymphonyTableCell]; [table] is [None] when the cell
    has no attribute [table] or when that is not a [SymphonyTable]. *)

Definition event_selection {A : Type} (super_event : M A) : M A :=
  _ ← print "SELECTION";
  _ ← set_last_selection None;
  super_event.

Definition event_selectionRemove {A : Type} (table : option SymphonyTable.Table)
    (super_event : M A) : M A :=
  _ ← print "SELECTION_REMOVE";
  _ ← match table with
      | Some table => SymphonyTable.announce_selected_cells table
      | None => mret tt
      end;
  super_event.

Definition event_selectionAdd {A : Type} (table : option SymphonyTable.Table)
    (super_event : M A) : M A :=
  _ ← print "SELECTION_ADD";
  _ ← match table with
      | Some table => SymphonyTable.announce_selected_cells table
      | None => mret tt
      end;
  super_event.

(** ** AppModule *)

Inductive Role : Set :=
  | TABLECELL
  | TABLE
  | PARAGRAPH
  | PANEL
  | LABEL
  | CANVAS
  | DOCUMENT
  | TEXTFRAME
  | OtherRole (n : positive).

#[global] Instance Role_eq_dec : EqDecision Role.
Proof. solve_decision. Defined.

(** The overlay classes of the module among the classes of a list. *)
Module Cls.

Inductive t : Set :=
  | SymphonyTableCell
  | SymphonyTable
  | SymphonyText
  | SymphonyParagraph
  | JAB_OOTableCell
  | JAB_OOTable
  | Other (n : positive).

End Cls.

Inductive TreeInterceptor : Set :=
  | CompoundDocument
  | OtherTreeInterceptor (n : positive).

(** What the two methods read and write of an object: whether it is an
    instance of [IAccessible] and of [JAB], whether it has an attribute
    [IAccessibleTextObject], and the role of its parent, if it has one. *)
Record NVDAObject : Set := {
  isIAccessible : bool;
  isJAB : bool;
  role : Role;
  windowClassName : string;
  hasIAccessibleTextObject : bool;
  parentRole : option Role;
  description : option string;
  treeInterceptorClass : option TreeInterceptor;
}.

Definition in_strings (s : string) (l : list string) : bool :=
  existsb (String.eqb s) l.

Definition chooseNVDAObjectOverlayClasses (obj : NVDAObject) (clsList : list Cls.t)
  : list Cls.t :=
  let clsList :=
    if isIAccessible obj
       && in_strings (windowClassName obj) ["SALTMPSUBFRAME"; "SALSUBFRAME"; "SALFRAME"]
    then
      let clsList :=
        if bool_decide (role obj = TABLECELL) then Cls.SymphonyTableCell :: clsList
        else if bool_decide (role obj = TABLE) then Cls.SymphonyTable :: clsList
        else if hasIAccessibleTextObject obj then Cls.SymphonyText :: clsList
        else clsList in
      if bool_decide (role obj = PARAGRAPH) then Cls.SymphonyParagraph :: clsList
      else clsList
    else clsList in
  if isJAB obj && String.eqb (windowClassName obj) "SALFRAME" then
    if bool_decide (role obj = PANEL) || bool_decide (role obj = LABEL) then
      if bool_decide (parentRole obj = Some TABLE) then Cls.JAB_OOTableCell :: clsList
      else clsList
    else if bool_decide (role obj = TABLE) then Cls.JAB_OOTable :: clsList
    else clsList
  else clsList.

Definition event_NVDAObject_init (obj : NVDAObject) : NVDAObject :=
  let obj :=
    if isJAB obj && String.eqb (windowClassName obj) "SALFRAME"
       && bool_decide (role obj = CANVAS)
    then {| isIAccessible := isIAccessible obj; isJAB := isJAB obj;
            role := DOCUMENT;
            windowClassName := windowClassName obj;
            hasIAccessibleTextObject := hasIAccessibleTextObject obj;
            parentRole := parentRole obj;
            description := description obj;
            treeInterceptorClass := treeInterceptorClass obj |}
    else obj in
  if in_strings (windowClassName obj) ["SALTMPSUBFRAME"; "SALFRAME"]
     && (bool_decide (role obj = DOCUMENT) || bool_decide (role obj = TEXTFRAME))
     && match description obj with Some d => negb (String.eqb d "") | None => false end
  then {| isIAccessible := isIAccessible obj; isJAB := isJAB obj;
          role := role obj;
          windowClassName := windowClassName obj;
          hasIAccessibleTextObject := hasIAccessibleTextObject obj;
          parentRole := parentRole obj;
          description := None;
          treeInterceptorClass := Some CompoundDocument |}
  else obj.

(** What a run of [announce_selected_cells] depends on, apart from the
    world: the name of a cell when its interfaces answer, and the names of
    the first and last selected cell when more than one cell is selected
    ([Returned None] when there is nothing to announce). *)

Definition cell_name (cell : SymphonyTable.Cell) : option (option string) :=
  iaTableCellObject ← SymphonyTable.tableCell cell;
  _ ← SymphonyTable.columnIndex iaTableCellObject;
  _ ← SymphonyTable.rowIndex iaTableCellObject;
  SymphonyTable.accName iaTableCellObject.

Definition selection_names (self : SymphonyTable.Table)
  : outcome (option (option string * option string)) :=
  match SymphonyTable.IAccessibleTable2Object self with
  | None => Returned None
  | Some table =>
      selection ← lift (call (SymphonyTable.selectedCells table));
      again ← lift (call (SymphonyTable.nSelectedCells table));
      if negb (selection.2 =? again) then Raised AssertionError
      else if selection.2 >? 1 then
        first_cell ← PyStr.item selection.1 0;
        first_cell_name ← lift (call (cell_name first_cell));
        last_cell ← PyStr.item selection.1 (selection.2 - 1);
        last_cell_name ← lift (call (cell_name last_cell));
        Returned (Some (first_cell_name, last_cell_name))
      else Returned None
  end.

(** The message spoken for a selection. *)
Definition selection_message (names : option string * option string) : string :=
  "selected cells: " +:+ PyStr.of_name names.1 +:+ " to " +:+ PyStr.of_name names.2.

(** A range of four selected cells, from A1 to B2; the same range with a
    count that [nSelectedCells] does not confirm; a world in which nothing
    has been printed, spoken or remembered. *)

Definition exampleCell (name : string) (column row : Z) : SymphonyTable.Cell := {|
  SymphonyTable.tableCell := Some {|
    SymphonyTable.columnIndex := Some column;
    SymphonyTable.rowIndex := Some row;
    SymphonyTable.accName := Some (Some name);
  |};
|}.

Definition exampleRange : SymphonyTable.Table := {|
  SymphonyTable.IAccessibleTable2Object := Some {|
    SymphonyTable.selectedCells :=
      Some ([exampleCell "A1" 0 0; exampleCell "B1" 1 0;
             exampleCell "A2" 0 1; exampleCell "B2" 1 1], 4);
    SymphonyTable.nSelectedCells := Some 4;
  |};
|}.

Definition miscountedRange : SymphonyTable.Table := {|
  SymphonyTable.IAccessibleTable2Object := Some {|
    SymphonyTable.selectedCells := Some ([exampleCell "A1" 0 0; exampleCell "B1" 1 0], 2);
    SymphonyTable.nSelectedCells := Some 3;
  |};
|}.

Definition silentWorld : world := {| last_selection := None; output := [] |}.

(** A canvas of the Java access bridge in a document window, with a
    description, and a paragraph of the IAccessible2 tree with text. *)

Definition exampleCanvas : NVDAObject := {|
  isIAccessible := false;
  isJAB := true;
  role := CANVAS;
  windowClassName := "SALFRAME";
  hasIAccessibleTextObject := false;
  parentRole := None;
  description := Some "Untitled 1 - Writer";
  treeInterceptorClass := None;
|}.

Definition exampleParagraphObject : NVDAObject := {|
  isIAccessible := true;
  isJAB := false;
  role := PARAGRAPH;
  windowClassName := "SALSUBFRAME";
  hasIAccessibleTextObject := true;
  parentRole := Some DOCUMENT;
  description := None;
  treeInterceptorClass := None;
|}.

(** The outside functions of the examples, with one colour known to
    [colors.RGB.fromString]. *)
Definition exampleColors : Externals := {|
  float := Z;
  float_of_str := float_of_str (Externals := exampleExternals);
  float_gt := float_gt (Externals := exampleExternals);
  str_of_dict := str_of_dict (Externals := exampleExternals);
  RGB_fromString color :=
    if eq_str color "rgb(255, 0, 0)" then Ok (mkRGB 255 0 0) else Raise ValueError;
  splitIA2Attribs := splitPlain;
|}.

(** A result that is anything but [COMError]. *)
Definition no_COMError {A : Type} (r : result A) : Prop := r <> Raise COMError.

(** * Properties of gridCoordStringToNumbers *)

Lemma all_chars (P : ascii -> Prop) :
  (forall b0 b1 b2 b3 b4 b5 b6 b7 : bool, P (Ascii b0 b1 b2 b3 b4 b5 b6 b7)) ->
  forall c, P c.
Proof. intros HP [b0 b1 b2 b3 b4 b5 b6 b7]. apply HP. Qed.

Ltac by_cases_on_char :=
  let c := fresh "c" in
  intro c; pattern c; revert c; apply all_chars;
  intros [] [] [] [] [] [] [] []; vm_compute; intuition congruence.

(** ** The characters

    The digits of the specification are the decimal digits; [str.isdigit]
    accepts them all, and nothing else among the characters below 128. *)

Lemma isdecimal_is_digit c : Py.isdecimal c = Spec.is_digit c.
Proof. revert c. by_cases_on_char. Qed.

Lemma is_digit_isdigit c : Spec.is_digit c = true -> Py.isdigit c = true.
Proof. revert c. by_cases_on_char. Qed.

Lemma isdigit_ascii c : (Py.ord c <? 128) = true -> Py.isdigit c = Spec.is_digit c.
Proof. revert c. by_cases_on_char. Qed.

Lemma isdigit_not_space c : Py.isdigit c = true -> Py.isspace c = false.
Proof. revert c. by_cases_on_char. Qed.

Lemma isdigit_not_sign c :
  Py.isdigit c = true -> Ascii.eqb c "-" = false /\ Ascii.eqb c "+" = false.
Proof. revert c. by_cases_on_char. Qed.

Lemma isdigit_not_underscore c : Py.isdigit c = true -> Ascii.eqb c "_" = false.
Proof. revert c. by_cases_on_char. Qed.

Lemma is_digit_value c : Spec.is_digit c = true -> 0 <= Py.ord c - 48 <= 9.
Proof. revert c. by_cases_on_char. Qed.

Lemma is_digit_ascii c : Spec.is_digit c = true -> (Py.ord c <? 128) = true.
Proof. revert c. by_cases_on_char. Qed.

Lemma is_letter_ascii c : Spec.is_letter c = true -> (Py.ord c <? 128) = true.
Proof. revert c. by_cases_on_char. Qed.

Lemma letterValue_letter c :
  Spec.is_letter c = true -> 1 <= Spec.letterValue c <= 26.
Proof. revert c. by_cases_on_char. Qed.

(** The upper case of a letter is the capital letter at its place in the
    alphabet, [A] having the code point 65. *)
Lemma upper_letter c :
  Spec.is_letter c = true -> Py.upper c = [Spec.letterValue c + 64].
Proof. revert c. by_cases_on_char. Qed.

Lemma upper_ascii_one c :
  (Py.ord c <? 128) = true -> Py.upper c = [default 0 (head (Py.upper c))].
Proof. revert c. by_cases_on_char. Qed.

Lemma upper_ascii c :
  (Py.ord c <? 128) = true -> exists code, Py.upper c = [code].
Proof. intros Hc. eexists. by apply upper_ascii_one. Qed.

Lemma swapcase_upper c : Py.upper (Spec.swapcase c) = Py.upper c.
Proof. revert c. by_cases_on_char. Qed.

Lemma swapcase_isdigit c : Py.isdigit (Spec.swapcase c) = Py.isdigit c.
Proof. revert c. by_cases_on_char. Qed.

Lemma swapcase_digit c : Py.isdigit c = true -> Spec.swapcase c = c.
Proof. revert c. by_cases_on_char. Qed.

Lemma swapcase_space c : Ascii.eqb " " (Spec.swapcase c) = Ascii.eqb " " c.
Proof. revert c. by_cases_on_char. Qed.

(** ** Lists of characters *)

Lemma forallb_rev {A : Type} (p : A -> bool) (l : list A) :
  forallb p (rev l) = forallb p l.
Proof.
  induction l as [|x l IH]; simpl; [done|].
  rewrite forallb_app, IH. simpl. rewrite andb_true_r. apply andb_comm.
Qed.

Lemma forallb_implies {A : Type} (p q : A -> bool) (l : list A) :
  (forall x, p x = true -> q x = true) -> forallb p l = true -> forallb q l = true.
Proof.
  intros Hpq. induction l as [|x l IH]; simpl; [done|].
  intros Hl. apply andb_prop in Hl as [Hx Hl]. by rewrite (Hpq _ Hx), IH.
Qed.

Lemma last_rev_head {A : Type} (l : list A) : head (rev l) = last l.
Proof.
  induction l as [|x l IH] using rev_ind; [done|].
  rewrite rev_unit, last_snoc. done.
Qed.

Lemma head_rev_last {A : Type} (l : list A) : last (rev l) = head l.
Proof. rewrite <- last_rev_head. by rewrite rev_involutive. Qed.

Lemma take_while_all {A : Type} (p : A -> bool) (l : list A) :
  forallb p (Spec.take_while p l) = true.
Proof.
  induction l as [|x l IH]; simpl; [done|].
  destruct (p x) eqn:E; simpl; [|done]. by rewrite E.
Qed.

Lemma take_take_while {A : Type} (p : A -> bool) (l : list A) :
  take (length (Spec.take_while p l)) l = Spec.take_while p l.
Proof.
  induction l as [|x l IH]; simpl; [done|].
  destruct (p x); simpl; [by rewrite IH | done].
Qed.

Lemma take_while_ext {A : Type} (p q : A -> bool) (l : list A) :
  Forall (fun x => p x = q x) l -> Spec.take_while p l = Spec.take_while q l.
Proof.
  induction 1 as [|x l Hx Hl IH]; simpl; [done|]. by rewrite Hx, IH.
Qed.

(** A run that [str.isdigit] accepts and that holds decimal digits only is
    the run of decimal digits. *)
Lemma take_while_decimal l :
  forallb Spec.is_digit (Spec.take_while Py.isdigit l) = true ->
  Spec.take_while Spec.is_digit l = Spec.take_while Py.isdigit l.
Proof.
  induction l as [|c l IH]; simpl; [done|].
  destruct (Py.isdigit c) eqn:E; simpl.
  - intros Hd. apply andb_prop in Hd as [-> Hd]. by rewrite IH.
  - intros _. destruct (Spec.is_digit c) eqn:E'; [|done].
    by rewrite (is_digit_isdigit _ E') in E.
Qed.

(** ** The shape of a label, for any test of digits *)

Section Shape.

Variable digit : ascii -> bool.

Lemma trailing_all cs : forallb digit (trailing digit cs) = true.
Proof. unfold trailing. rewrite forallb_rev. apply take_while_all. Qed.

Lemma trailing_length cs : (length (trailing digit cs) <= length cs)%nat.
Proof.
  unfold trailing. rewrite length_rev, <- (length_rev cs).
  generalize (rev cs) as rs. intros rs. induction rs as [|r rs IH]; simpl; [lia|].
  destruct (digit r); simpl; lia.
Qed.

Lemma drop_trailing cs :
  drop (length cs - length (trailing digit cs)) cs = trailing digit cs.
Proof.
  unfold trailing. rewrite length_rev.
  rewrite <- (take_take_while digit (rev cs)) at 2.
  rewrite firstn_rev, rev_involutive. done.
Qed.

Lemma leading_trailing cs : leading digit cs ++ trailing digit cs = cs.
Proof.
  unfold leading. rewrite <- (drop_trailing cs) at 2. apply take_drop.
Qed.

(** In a label of the right shape the run of trailing digits is not empty
    and stops before the first character. *)
Lemma shaped_run cs :
  shaped digit cs = true ->
  trailing digit cs <> [] /\
  forallb digit (rev cs) = false /\
  (length (trailing digit cs) < length cs)%nat.
Proof.
  unfold shaped, trailing. intros Hv.
  apply andb_prop in Hv as [Hv Hlast]. apply andb_prop in Hv as [Hv Hhead].
  apply andb_prop in Hv as [Hne _].
  rewrite <- last_rev_head in Hlast. rewrite <- head_rev_last in Hhead.
  rewrite length_rev.
  assert (Hlen : length (rev cs) = length cs) by apply length_rev.
  revert Hlast Hhead Hlen. generalize (rev cs) as rs. intros rs Hlast Hhead Hlen.
  assert (Hall : forallb digit rs = false).
  { clear Hlen. revert Hlast Hhead.
    induction rs as [|r rs _] using rev_ind; intros Hlast Hhead; [done|].
    rewrite last_snoc in Hhead. simpl in Hhead. apply negb_true_iff in Hhead.
    rewrite forallb_app. simpl. rewrite Hhead. by destruct (forallb _ rs). }
  split; [|split; [done|]].
  - destruct rs as [|r rs]; [done|]. simpl in Hlast. simpl. rewrite Hlast.
    intros E. apply app_eq_nil in E as [_ E]. discriminate.
  - rewrite <- Hlen. clear -Hall. induction rs as [|r rs IH]; [done|].
    simpl in *. destruct (digit r); simpl in *; [|lia].
    specialize (IH Hall). lia.
Qed.

Lemma shaped_leading cs : shaped digit cs = true -> leading digit cs <> [].
Proof.
  intros Hs. destruct (shaped_run cs Hs) as (_ & _ & Hlt).
  intros E. apply (f_equal (@length _)) in E. unfold leading in E.
  rewrite length_take in E. simpl in E. lia.
Qed.

End Shape.

Lemma shaped_ext p q cs :
  Forall (fun c => p c = q c) cs -> shaped p cs = shaped q cs.
Proof.
  intros Hcs. unfold shaped. f_equal; [f_equal|].
  - destruct Hcs as [|c cs Hc _]; simpl; [done|]. by rewrite Hc.
  - rewrite <- !last_rev_head. apply Forall_rev in Hcs.
    destruct Hcs as [|c l Hc _]; simpl; [done|]. by rewrite Hc.
Qed.

Lemma trailing_ext p q cs :
  Forall (fun c => p c = q c) cs -> trailing p cs = trailing q cs.
Proof.
  intros Hcs. unfold trailing. f_equal. by apply take_while_ext, Forall_rev.
Qed.

Lemma leading_ext p q cs :
  Forall (fun c => p c = q c) cs -> leading p cs = leading q cs.
Proof. intros Hcs. unfold leading. by rewrite (trailing_ext p q). Qed.

(** ** The two loops and [int] on a run of digits *)

(** The first loop stops at the first character, from the right, that is
    not a digit; it finds none when all are digits. *)
Lemma rowStartLoop_spec len index reversed :
  rowStartLoop len index reversed =
    if forallb Py.isdigit reversed then None
    else Some (len - (index + length (Spec.take_while Py.isdigit reversed)))%nat.
Proof.
  revert index. induction reversed as [|ch rest IH]; intros index; simpl; [done|].
  destruct (Py.isdigit ch); simpl.
  - rewrite IH. destruct (forallb _ rest); [done|]. f_equal. lia.
  - f_equal. lia.
Qed.

(** On letters the second loop adds up the sum of the specification. *)
Lemma colLoop_letters index reversed colNum :
  forallb Spec.is_letter reversed = true ->
  colLoop index reversed colNum = Ok (colNum + Spec.weighted index reversed).
Proof.
  revert index colNum.
  induction reversed as [|ch rest IH]; intros index colNum Hl; simpl.
  - f_equal. lia.
  - simpl in Hl. apply andb_prop in Hl as [Hch Hl].
    rewrite (upper_letter _ Hch). cbn [Py.ord_string mbind result_bind].
    rewrite (IH _ _ Hl). f_equal. change (Py.ord "A") with 65. lia.
Qed.

(** On ASCII characters it returns. *)
Lemma colLoop_ascii index reversed colNum :
  forallb (fun c => Py.ord c <? 128) reversed = true ->
  returns (colLoop index reversed colNum).
Proof.
  revert index colNum.
  induction reversed as [|ch rest IH]; intros index colNum Ha; simpl; [by eexists|].
  simpl in Ha. apply andb_prop in Ha as [Hch Ha].
  destruct (upper_ascii _ Hch) as [code ->]. cbn [Py.ord_string mbind result_bind].
  by apply IH.
Qed.

(** It raises nothing but [TypeError]. *)
Lemma colLoop_raises index reversed colNum e :
  colLoop index reversed colNum = Raise e -> e = TypeError.
Proof.
  revert index colNum.
  induction reversed as [|ch rest IH]; intros index colNum; simpl; [done|].
  destruct (Py.upper ch) as [|code [|? ?]]; cbn [Py.ord_string mbind result_bind];
    [by intros [= <-] | apply IH | by intros [= <-]].
Qed.

Lemma int_digits_run prev acc ds :
  forallb Spec.is_digit ds = true ->
  Py.int_digits prev acc ds =
    match ds with
    | [] => if prev then Some acc else None
    | _ => Some (fold_left (fun n d => 10 * n + (Py.ord d - Py.ord "0")) ds acc)
    end.
Proof.
  revert prev acc. induction ds as [|d ds IH]; intros prev acc Hds; [done|].
  simpl in Hds. apply andb_prop in Hds as [Hd Hds].
  cbn [Py.int_digits fold_left]. rewrite isdecimal_is_digit, Hd, (IH _ _ Hds).
  by destruct ds.
Qed.

(** A superscript among the digits is refused. *)
Lemma int_digits_refused prev acc ds :
  forallb Py.isdigit ds = true -> forallb Spec.is_digit ds = false ->
  Py.int_digits prev acc ds = None.
Proof.
  revert prev acc. induction ds as [|d ds IH]; intros prev acc Hds Hno; [done|].
  simpl in Hds. apply andb_prop in Hds as [Hd Hds].
  cbn [Py.int_digits]. rewrite isdecimal_is_digit.
  simpl in Hno. destruct (Spec.is_digit d); simpl in Hno.
  - by apply IH.
  - by rewrite (isdigit_not_underscore _ Hd).
Qed.

Lemma lstrip_digit_first d ds : Py.isdigit d = true -> Py.lstrip (d :: ds) = d :: ds.
Proof. intros Hd. simpl. by rewrite isdigit_not_space. Qed.

Lemma strip_digits ds : forallb Py.isdigit ds = true -> Py.strip ds = ds.
Proof.
  intros Hds. unfold Py.strip. destruct ds as [|d ds]; [done|].
  pose proof Hds as Hd. simpl in Hd. apply andb_prop in Hd as [Hd _].
  rewrite (lstrip_digit_first _ _ Hd).
  pose proof (forallb_rev Py.isdigit (d :: ds)) as Hrev. rewrite Hds in Hrev.
  destruct (rev (d :: ds)) as [|e es] eqn:E.
  - apply (f_equal (@rev _)) in E. rewrite rev_involutive in E. done.
  - simpl in Hrev. apply andb_prop in Hrev as [He _].
    rewrite (lstrip_digit_first _ _ He), <- E. apply rev_involutive.
Qed.

(** [int] on a non-empty run of characters that [str.isdigit] accepts: the
    run read in base 10 when all are decimal digits, [ValueError]
    otherwise. *)
Lemma int_digit_run ds :
  ds <> [] -> forallb Py.isdigit ds = true ->
  Py.int ds =
    if forallb Spec.is_digit ds then Ok (Spec.base10 ds) else Raise ValueError.
Proof.
  intros Hne Hds. unfold Py.int. rewrite (strip_digits _ Hds).
  destruct ds as [|d ds]; [done|].
  pose proof Hds as Hd. simpl in Hd. apply andb_prop in Hd as [Hd _].
  destruct (isdigit_not_sign _ Hd) as [-> ->].
  destruct (forallb Spec.is_digit (d :: ds)) eqn:E.
  - by rewrite (int_digits_run _ _ _ E).
  - by rewrite (int_digits_refused _ _ _ Hds E).
Qed.

(** [int] reads a non-empty run of digits in base 10. *)
Lemma int_of_digits ds :
  ds <> [] -> forallb Spec.is_digit ds = true -> Py.int ds = Ok (Spec.base10 ds).
Proof.
  intros Hne Hds. rewrite int_digit_run, Hds; [done|done|].
  by apply (forallb_implies Spec.is_digit Py.isdigit _ is_digit_isdigit).
Qed.

(** ** The guard and the shape *)

Lemma badCoordString_shaped cs : badCoordString cs = negb (shaped Py.isdigit cs).
Proof.
  unfold badCoordString, shaped.
  assert (Hd : forall o, match o with Some c => Py.isdigit c | None => false end
                         = from_option Py.isdigit false o).
  { by intros [c|]. }
  rewrite !Hd. clear Hd.
  generalize Py.isdigit as dg, (Ascii.eqb " ") as sp. intros dg sp.
  destruct cs as [|a [|b cs]]; [done| |].
  - simpl. by destruct (sp a), (dg a).
  - change (length (a :: b :: cs) <? 2)%nat with false.
    rewrite bool_decide_eq_false_2 by done.
    change (head (a :: b :: cs)) with (Some a).
    destruct (last (a :: b :: cs)) as [z|]; simpl;
      destruct (sp a), (sp b), (existsb _ cs), (dg a); simpl; try done;
      by destruct (dg z).
Qed.

(** What the function does: it refuses the labels that have not the shape,
    reads the run of digits at the end with [int] and then the characters
    before. *)
Lemma gridCoordStringToNumbers_shaped label :
  gridCoordStringToNumbers label =
    let cs := list_ascii_of_string label in
    if shaped Py.isdigit cs then
      rowNum ← Py.int (trailing Py.isdigit cs);
      colNum ← colLoop 0 (rev (leading Py.isdigit cs)) 0;
      Ok (rowNum, colNum)
    else Raise ValueError.
Proof.
  unfold gridCoordStringToNumbers.
  generalize (list_ascii_of_string label) as cs. intros cs. cbv zeta.
  rewrite badCoordString_shaped.
  destruct (shaped Py.isdigit cs) eqn:Hs; simpl negb; cbv iota; [|done].
  destruct (shaped_run _ cs Hs) as (Hne & Hall & Hlt).
  rewrite rowStartLoop_spec, Hall.
  replace (length cs - (0 + length (Spec.take_while Py.isdigit (rev cs))))%nat
    with (length cs - length (trailing Py.isdigit cs))%nat
    by (unfold trailing; rewrite length_rev; lia).
  unfold Py.slice_from, Py.slice_to. by rewrite drop_trailing.
Qed.

Lemma isascii_digits label :
  Py.isascii label = true ->
  Forall (fun c => Py.isdigit c = Spec.is_digit c) (list_ascii_of_string label).
Proof.
  unfold Py.isascii. generalize (list_ascii_of_string label) as cs. intros cs Ha.
  induction cs as [|c cs IH]; [constructor|].
  simpl in Ha. apply andb_prop in Ha as [Hc Ha].
  constructor; [by apply isdigit_ascii | by apply IH].
Qed.

(** On an ASCII label the shape is the one of the specification. *)
Lemma gridCoordStringToNumbers_ascii label :
  Py.isascii label = true ->
  gridCoordStringToNumbers label =
    if Spec.valid_label label then
      colNum ← colLoop 0 (rev (Spec.letter_prefix (list_ascii_of_string label))) 0;
      Ok (Spec.row label, colNum)
    else Raise ValueError.
Proof.
  intros Ha. pose proof (isascii_digits _ Ha) as Hd.
  rewrite gridCoordStringToNumbers_shaped. cbv zeta.
  rewrite (shaped_ext _ _ _ Hd), (trailing_ext _ _ _ Hd), (leading_ext _ _ _ Hd).
  change (shaped Spec.is_digit (list_ascii_of_string label)) with (Spec.valid_label label).
  destruct (Spec.valid_label label) eqn:Hv; [|done].
  destruct (shaped_run Spec.is_digit _ Hv) as (Hne & _ & _).
  rewrite int_of_digits; [done|done|apply trailing_all].
Qed.

Lemma isascii_returns label :
  Py.isascii label = true -> Spec.valid_label label = true ->
  returns (gridCoordStringToNumbers label).
Proof.
  intros Ha Hv. rewrite (gridCoordStringToNumbers_ascii _ Ha), Hv.
  destruct (colLoop_ascii 0 (rev (Spec.letter_prefix (list_ascii_of_string label))) 0)
    as [colNum ->]; [|by eexists].
  rewrite forallb_rev. unfold Spec.letter_prefix. unfold Py.isascii in Ha.
  rewrite <- (take_drop (length (list_ascii_of_string label)
                         - length (Spec.trailing_digits (list_ascii_of_string label)))
                (list_ascii_of_string label)) in Ha.
  rewrite forallb_app in Ha. by apply andb_prop in Ha as [Ha _].
Qed.

(** What a returned pair tells: the label has the shape of the
    specification, the row is its run of decimal digits and the column is
    what the second loop makes of the characters before. *)
Lemma gridCoordStringToNumbers_Ok label rowNum colNum :
  gridCoordStringToNumbers label = Ok (rowNum, colNum) ->
  Spec.valid_label label = true /\
  rowNum = Spec.row label /\
  colLoop 0 (rev (Spec.letter_prefix (list_ascii_of_string label))) 0 = Ok colNum.
Proof.
  rewrite gridCoordStringToNumbers_shaped. cbv zeta.
  unfold Spec.valid_label, Spec.row.
  generalize (list_ascii_of_string label) as cs. intros cs.
  destruct (shaped Py.isdigit cs) eqn:Hs; [|done].
  destruct (shaped_run _ cs Hs) as (Hne & _ & Hlt).
  rewrite int_digit_run; [|done|apply trailing_all].
  destruct (forallb Spec.is_digit (trailing Py.isdigit cs)) eqn:Hd; [|done].
  cbn [mbind result_bind].
  assert (Ht : Spec.trailing_digits cs = trailing Py.isdigit cs).
  { unfold Spec.trailing_digits, trailing. f_equal. apply take_while_decimal.
    unfold trailing in Hd. by rewrite forallb_rev in Hd. }
  assert (Hp : Spec.letter_prefix cs = leading Py.isdigit cs).
  { unfold Spec.letter_prefix, leading. by rewrite Ht. }
  rewrite Hp, Ht.
  destruct (colLoop 0 (rev (leading Py.isdigit cs)) 0) as [c|e]; [|done].
  cbn [mbind result_bind]. intros [= <- <-]. split; [|done].
  unfold Spec.valid_chars. unfold shaped in Hs.
  apply andb_prop in Hs as [Hs Hlast]. apply andb_prop in Hs as [Hs Hhead].
  rewrite Hs. cbn [andb]. apply andb_true_intro. split.
  - destruct (head cs) as [c0|]; [|done]. simpl in *.
    destruct (Spec.is_digit c0) eqn:E; [|done].
    by rewrite (is_digit_isdigit _ E) in Hhead.
  - rewrite <- (leading_trailing Py.isdigit cs).
    destruct (trailing Py.isdigit cs) as [|d ds] using rev_ind; [done|].
    rewrite app_assoc, last_snoc. simpl.
    rewrite forallb_app in Hd. apply andb_prop in Hd as [_ Hd].
    simpl in Hd. by rewrite andb_true_r in Hd.
Qed.

Lemma int_raises_ValueError s e : Py.int s = Raise e -> e = ValueError.
Proof. unfold Py.int. by repeat case_match; intros [= <-]. Qed.

(** Nothing but [ValueError] and [TypeError] leaves the function:
    [ValueError] from the guard and from [int], [TypeError] from [ord]. *)
Theorem gridCoordStringToNumbers_raises label e :
  gridCoordStringToNumbers label = Raise e -> e = ValueError \/ e = TypeError.
Proof.
  rewrite gridCoordStringToNumbers_shaped. cbv zeta.
  destruct (shaped _ _); [|intros [= <-]; by left].
  destruct (Py.int _) as [rowNum|e'] eqn:Hi; cbn [mbind result_bind].
  - destruct (colLoop _ _ _) as [colNum|e'] eqn:Hc; cbn [mbind result_bind]; [done|].
    intros [= <-]. right. by apply colLoop_raises in Hc.
  - intros [= <-]. left. by apply int_raises_ValueError in Hi.
Qed.

Lemma gridCoordStringToNumbers_raises_witness :
  gridCoordStringToNumbers street_label = Raise TypeError /\
  (TypeError = ValueError \/ TypeError = TypeError).
Proof.
  split; [reflexivity|].
  exact (gridCoordStringToNumbers_raises street_label TypeError eq_refl).
Defined.

(** ** Bounds on the row and the column *)

Lemma base10_from_nonneg ds n :
  forallb Spec.is_digit ds = true -> 0 <= n ->
  n <= fold_left (fun n d => 10 * n + (Py.ord d - Py.ord "0")) ds n.
Proof.
  revert n. induction ds as [|d ds IH]; intros n Hds Hn; simpl; [lia|].
  simpl in Hds. apply andb_prop in Hds as [Hd Hds].
  apply is_digit_value in Hd.
  change (Py.ord "0") with 48 in *.
  etransitivity; [|apply IH; [done|lia]]. lia.
Qed.

Lemma base10_from_positive ds n :
  forallb Spec.is_digit ds = true -> 0 <= n ->
  existsb (fun d => negb (Ascii.eqb d "0")) ds = true ->
  1 <= fold_left (fun n d => 10 * n + (Py.ord d - Py.ord "0")) ds n.
Proof.
  revert n. induction ds as [|d ds IH]; intros n Hds Hn Hnz; simpl; [done|].
  simpl in Hds. apply andb_prop in Hds as [Hd Hds].
  pose proof (is_digit_value _ Hd) as Hv.
  change (Py.ord "0") with 48 in *.
  simpl in Hnz. apply orb_prop in Hnz as [Hnz|Hnz].
  - etransitivity; [|apply base10_from_nonneg; [done|lia]].
    assert (Py.ord d <> 48); [|lia].
    intros E. revert d Hnz E Hd Hv. by_cases_on_char.
  - apply IH; [done|lia|done].
Qed.

Lemma weighted_letters_nonneg position rightToLeft :
  forallb Spec.is_letter rightToLeft = true -> 0 <= Spec.weighted position rightToLeft.
Proof.
  revert position. induction rightToLeft as [|c rest IH]; intros position Hl; simpl; [lia|].
  simpl in Hl. apply andb_prop in Hl as [Hc Hl]. apply letterValue_letter in Hc.
  specialize (IH (S position) Hl).
  assert (0 < 26 ^ Z.of_nat position) by (apply Z.pow_pos_nonneg; lia). nia.
Qed.

Lemma weighted_letters_positive position rightToLeft :
  rightToLeft <> [] -> forallb Spec.is_letter rightToLeft = true ->
  1 <= Spec.weighted position rightToLeft.
Proof.
  destruct rightToLeft as [|c rest]; [done|]. intros _ Hl. simpl.
  simpl in Hl. apply andb_prop in Hl as [Hc Hl]. apply letterValue_letter in Hc.
  pose proof (weighted_letters_nonneg (S position) rest Hl).
  assert (0 < 26 ^ Z.of_nat position) by (apply Z.pow_pos_nonneg; lia). nia.
Qed.

(** The sum of the specification is the numeral read from left to right. *)
Lemma weighted_shift position rightToLeft :
  Spec.weighted (S position) rightToLeft = 26 * Spec.weighted position rightToLeft.
Proof.
  revert position. induction rightToLeft as [|c rest IH]; intros position; simpl; [lia|].
  rewrite IH. rewrite !Nat2Z.inj_succ, Z.pow_succ_r by lia. simpl. nia.
Qed.

Lemma bijective26_numeral26 prefix : Spec.bijective26 prefix = Spec.numeral26 prefix.
Proof.
  unfold Spec.bijective26, Spec.numeral26.
  induction prefix as [|c prefix IH] using rev_ind; [done|].
  rewrite rev_unit, fold_left_app. simpl. rewrite weighted_shift, IH. lia.
Qed.

(** With letters before the digits the column is the bijective base-26
    numeral of the specification. *)
Lemma gridCoordStringToNumbers_letters label :
  Spec.valid_label label = true ->
  forallb Spec.is_letter (Spec.letter_prefix (list_ascii_of_string label)) = true ->
  gridCoordStringToNumbers label = Ok (Spec.row label, Spec.column label).
Proof.
  intros Hv Hl.
  assert (Ha : Py.isascii label = true).
  { unfold Py.isascii.
    rewrite <- (leading_trailing Spec.is_digit (list_ascii_of_string label)).
    rewrite forallb_app. apply andb_true_intro. split.
    - by apply (forallb_implies Spec.is_letter _ _ is_letter_ascii).
    - apply (forallb_implies Spec.is_digit _ _ is_digit_ascii), trailing_all. }
  rewrite (gridCoordStringToNumbers_ascii _ Ha), Hv.
  rewrite colLoop_letters by (by rewrite forallb_rev). done.
Qed.

(** ** Changing the case of letters *)

Lemma case_variant_rev l l' :
  Forall2 Spec.case_variant l l' -> Forall2 Spec.case_variant (rev l) (rev l').
Proof.
  induction 1 as [|c c' l l' Hc Hl IH]; simpl; [constructor|].
  apply Forall2_app; [done|]. by constructor.
Qed.

Lemma case_variant_take_while l l' :
  Forall2 Spec.case_variant l l' ->
  Spec.take_while Py.isdigit l' = Spec.take_while Py.isdigit l.
Proof.
  induction 1 as [|c c' l l' Hc Hl IH]; simpl; [done|].
  destruct Hc as [->| ->].
  - by rewrite IH.
  - rewrite swapcase_isdigit. destruct (Py.isdigit c) eqn:E; [|done].
    by rewrite IH, swapcase_digit.
Qed.

Lemma case_variant_colLoop index l l' colNum :
  Forall2 Spec.case_variant l l' -> colLoop index l' colNum = colLoop index l colNum.
Proof.
  intros Hl. revert index colNum.
  induction Hl as [|c c' l l' Hc Hl IH]; intros index colNum; simpl; [done|].
  assert (Hu : Py.upper c' = Py.upper c).
  { destruct Hc as [->| ->]; [done|]. apply swapcase_upper. }
  rewrite Hu. destruct (Py.ord_string (Py.upper c)); cbn [mbind result_bind]; [|done].
  apply IH.
Qed.

Lemma case_variant_existsb_space l l' :
  Forall2 Spec.case_variant l l' -> existsb (Ascii.eqb " ") l' = existsb (Ascii.eqb " ") l.
Proof.
  induction 1 as [|c c' l l' Hc Hl IH]; simpl; [done|].
  rewrite IH. f_equal. destruct Hc as [->| ->]; [done|]. apply swapcase_space.
Qed.

Lemma case_variant_head l l' :
  Forall2 Spec.case_variant l l' ->
  from_option Py.isdigit false (head l') = from_option Py.isdigit false (head l).
Proof.
  destruct 1 as [|c c' l l' Hc Hl]; simpl; [done|].
  destruct Hc as [->| ->]; [done|]. apply swapcase_isdigit.
Qed.

Lemma case_variant_shaped l l' :
  Forall2 Spec.case_variant l l' -> shaped Py.isdigit l' = shaped Py.isdigit l.
Proof.
  intros Hl. unfold shaped.
  rewrite (case_variant_existsb_space _ _ Hl), (case_variant_head _ _ Hl).
  rewrite <- !last_rev_head, (case_variant_head _ _ (case_variant_rev _ _ Hl)).
  f_equal. f_equal. f_equal. f_equal.
  destruct Hl; [done|]. by rewrite !bool_decide_eq_false_2.
Qed.

(** A label and the same label with letters in the other case have the
    same outcome. *)
Lemma case_changed_same label label' :
  Spec.case_changed label label' ->
  gridCoordStringToNumbers label' = gridCoordStringToNumbers label.
Proof.
  unfold Spec.case_changed. intros Hl.
  rewrite !gridCoordStringToNumbers_shaped. cbv zeta.
  rewrite (case_variant_shaped _ _ Hl).
  destruct (shaped Py.isdigit (list_ascii_of_string label)); [|done].
  assert (Hd : trailing Py.isdigit (list_ascii_of_string label')
               = trailing Py.isdigit (list_ascii_of_string label)).
  { unfold trailing.
    by rewrite (case_variant_take_while _ _ (case_variant_rev _ _ Hl)). }
  rewrite Hd. destruct (Py.int _); cbn [mbind result_bind]; [|done].
  rewrite (case_variant_colLoop 0 (rev (leading Py.isdigit (list_ascii_of_string label)))
             (rev (leading Py.isdigit (list_ascii_of_string label')))); [done|].
  apply case_variant_rev. unfold leading.
  rewrite Hd, (Forall2_length _ _ _ Hl). by apply Forall2_take.
Qed.

(** ** The claims on cell labels *)

(** Claim C1, as amended: on every label of the right shape (non-empty,
    no space, no digit first, a digit last) whose characters before the
    trailing digits are letters, the function returns the pair whose row is
    the maximal trailing run of digits read in base 10 and whose column is
    the letters before it read as a bijective base-26 numeral; so ["A1"]
    gives (1, 1), ["Z1"] (1, 26), ["AA1"] (1, 27) and ["B12"] (12, 2). *)
Theorem decode_row_and_column :
  (forall label,
     Spec.valid_label label = true ->
     forallb Spec.is_letter (Spec.letter_prefix (list_ascii_of_string label)) = true ->
     gridCoordStringToNumbers label = Ok (Spec.row label, Spec.column label)) /\
  gridCoordStringToNumbers "A1" = Ok (1, 1) /\
  gridCoordStringToNumbers "Z1" = Ok (1, 26) /\
  gridCoordStringToNumbers "AA1" = Ok (1, 27) /\
  gridCoordStringToNumbers "B12" = Ok (12, 2).
Proof. split; [exact gridCoordStringToNumbers_letters | by vm_compute]. Qed.

Lemma decode_row_and_column_witness :
  Spec.valid_label "AB23" = true /\ gridCoordStringToNumbers "AB23" = Ok (23, 28).
Proof.
  split; [reflexivity|]. exact (proj1 decode_row_and_column "AB23" eq_refl eq_refl).
Defined.

(** A sharp s before the row 1 has the shape, and no pair is returned for
    it: its upper case is two letters, of which [ord] raises [TypeError].
    Where the characters before the digits are no letters the column is no
    numeral either: ["@1"] gives the column 0 and ["[1"] gives the column
    of ["AA1"]. *)
Lemma decode_sharp_s_raises :
  Spec.valid_label sharp_s_label = true /\
  gridCoordStringToNumbers sharp_s_label = Raise TypeError /\
  gridCoordStringToNumbers "@1" = Ok (1, 0) /\
  gridCoordStringToNumbers "[1" = gridCoordStringToNumbers "AA1" /\
  ~ (forall label,
       Spec.valid_label label = true ->
       gridCoordStringToNumbers label = Ok (Spec.row label, Spec.column label)).
Proof.
  split; [reflexivity|]. split; [reflexivity|]. split; [reflexivity|].
  split; [reflexivity|].
  intros Hall. specialize (Hall sharp_s_label eq_refl). discriminate Hall.
Qed.

(** Claim C5, as amended: on ASCII labels the function raises
    [ValueError] exactly when the label breaks the shape (empty, or with a
    space, or with a digit first, or without a digit last), as [""],
    ["1A"], ["A B1"] and ["AB"] do; on every other ASCII label it returns,
    and it raises nothing but [ValueError]. *)
Theorem decode_fails_iff_shape_broken :
  (forall label,
     Py.isascii label = true ->
     (gridCoordStringToNumbers label = Raise ValueError
      <-> Spec.valid_label label = false) /\
     (Spec.valid_label label = true -> returns (gridCoordStringToNumbers label)) /\
     (forall e, gridCoordStringToNumbers label = Raise e -> e = ValueError)) /\
  gridCoordStringToNumbers "" = Raise ValueError /\
  gridCoordStringToNumbers "1A" = Raise ValueError /\
  gridCoordStringToNumbers "A B1" = Raise ValueError /\
  gridCoordStringToNumbers "AB" = Raise ValueError.
Proof.
  split; [|by vm_compute]. intros label Ha.
  destruct (Spec.valid_label label) eqn:Hv.
  - destruct (isascii_returns _ Ha Hv) as [p Hp]. rewrite Hp.
    split; [by split|]. split; [by eexists|done].
  - rewrite (gridCoordStringToNumbers_ascii _ Ha), Hv.
    split; [by split|]. split; [done|]. by intros e [= <-].
Qed.

Lemma decode_fails_iff_shape_broken_witness :
  Spec.valid_label "C7" = true /\ returns (gridCoordStringToNumbers "C7") /\
  Spec.valid_label "7C" = false /\ gridCoordStringToNumbers "7C" = Raise ValueError.
Proof.
  split; [reflexivity|]. split.
  - exact (proj1 (proj2 (proj1 decode_fails_iff_shape_broken "C7" eq_refl)) eq_refl).
  - split; [reflexivity|].
    exact (proj2 (proj1 (proj1 decode_fails_iff_shape_broken "7C" eq_refl)) eq_refl).
Defined.

(** A street name with a sharp s before the row 1 has the shape and is
    not decoded: [TypeError] is raised, not [ValueError].  A superscript
    two before the row 1 has the shape as well, the superscript being none
    of the ten digits, and is refused with [ValueError], since
    [str.isdigit] accepts the superscript. *)
Lemma decode_shape_is_not_enough :
  Spec.valid_label street_label = true /\
  gridCoordStringToNumbers street_label = Raise TypeError /\
  Spec.valid_label superscript_label = true /\
  gridCoordStringToNumbers superscript_label = Raise ValueError /\
  ~ (forall label,
       Spec.valid_label label = true -> returns (gridCoordStringToNumbers label)) /\
  ~ (forall label,
       gridCoordStringToNumbers label = Raise ValueError
       <-> Spec.valid_label label = false).
Proof.
  split; [reflexivity|]. split; [reflexivity|]. split; [reflexivity|].
  split; [reflexivity|]. split.
  - intros Hall. destruct (Hall street_label eq_refl) as [p Hp]. discriminate Hp.
  - intros Hall. destruct (Hall superscript_label) as [Hv _].
    specialize (Hv eq_refl). discriminate Hv.
Qed.

(** Claim C7, as amended: whenever the function returns a pair, the row
    is at least 0, and at least 1 when one of the trailing digits is not
    [0]; the column is at least 1 when every character before the
    trailing digits is a letter. *)
Theorem decode_bounds label rowNum colNum :
  gridCoordStringToNumbers label = Ok (rowNum, colNum) ->
  0 <= rowNum /\
  (existsb (fun d => negb (Ascii.eqb d "0"))
     (Spec.trailing_digits (list_ascii_of_string label)) = true -> 1 <= rowNum) /\
  (forallb Spec.is_letter (Spec.letter_prefix (list_ascii_of_string label)) = true ->
     1 <= colNum).
Proof.
  intros Hok. destruct (gridCoordStringToNumbers_Ok _ _ _ Hok) as (Hv & -> & Hcol).
  unfold Spec.row, Spec.valid_label in *.
  set (cs := list_ascii_of_string label) in *.
  pose proof (trailing_all Spec.is_digit cs) as Hds.
  split; [|split].
  - by apply base10_from_nonneg.
  - intros Hnz. by apply base10_from_positive.
  - intros Hl. rewrite colLoop_letters in Hcol by (by rewrite forallb_rev).
    injection Hcol as <-. rewrite Z.add_0_l. apply weighted_letters_positive.
    + intros E. apply (f_equal (@rev _)) in E. rewrite rev_involutive in E.
      by apply (shaped_leading Spec.is_digit cs Hv).
    + by rewrite forallb_rev.
Qed.

Lemma decode_bounds_witness :
  gridCoordStringToNumbers "AB23" = Ok (23, 28) /\ 0 <= 23 /\ 1 <= 23 /\ 1 <= 28.
Proof.
  split; [reflexivity|].
  destruct (decode_bounds "AB23" 23 28 eq_refl) as (Hr & Hnz & Hl).
  split; [exact Hr|]. split.
  - exact (Hnz eq_refl).
  - exact (Hl eq_refl).
Defined.

(** The row of ["A0"] is 0, and the column of ["@1"] is 0. *)
Lemma decode_row_zero :
  Spec.valid_label "A0" = true /\ gridCoordStringToNumbers "A0" = Ok (0, 1) /\
  Spec.valid_label "@1" = true /\ gridCoordStringToNumbers "@1" = Ok (1, 0) /\
  ~ (forall label rowNum colNum,
       Spec.valid_label label = true ->
       gridCoordStringToNumbers label = Ok (rowNum, colNum) ->
       1 <= rowNum /\ 1 <= colNum).
Proof.
  repeat split; try reflexivity.
  intros Hall. destruct (Hall "A0" 0 1 eq_refl eq_refl) as [Hrow _]. lia.
Qed.

(** Claim C8: when the function returns a pair for a label, it returns
    the same pair for the label with letters changed between upper and
    lower case; so ["a1"] gives (1, 1) as ["A1"] does. *)
Theorem decode_case_insensitive :
  (forall label label' decoded,
     Spec.case_changed label label' ->
     gridCoordStringToNumbers label = Ok decoded ->
     gridCoordStringToNumbers label' = Ok decoded) /\
  gridCoordStringToNumbers "a1" = Ok (1, 1) /\
  gridCoordStringToNumbers "A1" = Ok (1, 1).
Proof.
  split; [|by vm_compute]. intros label label' decoded Hl Hok.
  by rewrite (case_changed_same _ _ Hl).
Qed.

Lemma decode_case_insensitive_witness :
  gridCoordStringToNumbers "Ab23" = Ok (23, 28) /\
  gridCoordStringToNumbers "aB23" = Ok (23, 28).
Proof.
  split; [reflexivity|].
  apply (proj1 decode_case_insensitive "Ab23" "aB23" (23, 28)); [|reflexivity].
  repeat (constructor; [first [by left | by right]|]). constructor.
Defined.

(** * Properties of getSelectedItemsCount *)

(** Claim C10: the function always returns an integer that is at least 1:
    the count reported by the table when that is positive, and 1 when the
    count is zero and when the query or the count raises [COMError]; it
    never returns 0 and never raises. *)
Theorem getSelectedItemsCount_at_least_one self :
  (exists n, getSelectedItemsCount self = Ok n /\ 1 <= n) /\
  (forall iaTableObject count,
     QueryInterface self = Some iaTableObject ->
     nSelectedCells self iaTableObject = Some count ->
     (0 < count -> getSelectedItemsCount self = Ok count) /\
     (count = 0 -> getSelectedItemsCount self = Ok 1)) /\
  (QueryInterface self = None -> getSelectedItemsCount self = Ok 1) /\
  (forall iaTableObject,
     QueryInterface self = Some iaTableObject ->
     nSelectedCells self iaTableObject = None ->
     getSelectedItemsCount self = Ok 1).
Proof.
  unfold getSelectedItemsCount.
  destruct (QueryInterface self) as [ia|] eqn:Hq; simpl.
  - destruct (nSelectedCells self ia) as [count|] eqn:Hc; simpl.
    + destruct (Z.gtb_spec count 0); simpl.
      * split; [exists count; split; [done|lia]|].
        split; [|split; [done|]].
        -- intros ? ? [= <-]. rewrite Hc. intros [= <-]. split; [done|lia].
        -- intros ? [= <-]. by rewrite Hc.
      * split; [exists 1; split; [done|lia]|].
        split; [|split; [done|]].
        -- intros ? ? [= <-]. rewrite Hc. intros [= <-]. split; [lia|done].
        -- intros ? [= <-]. by rewrite Hc.
    + split; [exists 1; split; [done|lia]|].
      split; [|split; [done|done]].
      intros ? ? [= <-]. by rewrite Hc.
  - split; [exists 1; split; [done|lia]|]. by repeat split.
Qed.

Lemma getSelectedItemsCount_at_least_one_witness :
  getSelectedItemsCount exampleTable = Ok 3.
Proof.
  apply (proj1 (proj2 (getSelectedItemsCount_at_least_one exampleTable)) tt 3);
    [reflexivity | reflexivity | lia].
Defined.

(** * Properties of the format field *)

Section FormatFieldProperties.

Context `{Externals}.

Ltac step_cases :=
  unfold mbind, result_bind, except_COMError, call in *;
  repeat (case_match; simplify_eq/=); try done.

Ltac frame_step :=
  intros; step_cases; rewrite ?lookup_insert_ne, ?lookup_delete_ne by done; done.

(** ** What each derivation leaves alone *)

Lemma deriveTextPosition_frame ff ff' k :
  deriveTextPosition ff = Ok ff' -> k ≠ "text-position" -> ff' !! k = ff !! k.
Proof. unfold deriveTextPosition. frame_step. Qed.

Lemma deriveFontName_frame ff ff' k :
  deriveFontName ff = Ok ff' -> k ≠ "font-name" -> ff' !! k = ff !! k.
Proof. unfold deriveFontName. frame_step. Qed.

Lemma deriveFontSize_frame ff ff' k :
  deriveFontSize ff = Ok ff' -> k ≠ "font-size" -> ff' !! k = ff !! k.
Proof. unfold deriveFontSize. frame_step. Qed.

Lemma deriveItalic_frame ff ff' k :
  deriveItalic ff = Ok ff' -> k ≠ "italic" -> ff' !! k = ff !! k.
Proof. unfold deriveItalic. frame_step. Qed.

Lemma deriveStrikethrough_frame ff ff' k :
  deriveStrikethrough ff = Ok ff' -> k ≠ "strikethrough" -> ff' !! k = ff !! k.
Proof. unfold deriveStrikethrough. frame_step. Qed.

Lemma deriveUnderline_frame ff ff' k :
  deriveUnderline ff = Ok ff' -> k ≠ "invalid-spelling" -> k ≠ "underline" ->
  ff' !! k = ff !! k.
Proof. unfold deriveUnderline. frame_step. Qed.

Lemma deriveBold_frame ff ff' k :
  deriveBold ff = Ok ff' -> k ≠ "bold" -> ff' !! k = ff !! k.
Proof. unfold deriveBold. frame_step. Qed.

Lemma deriveColor_frame source target ff ff' k :
  deriveColor source target ff = Ok ff' -> k ≠ source -> k ≠ target ->
  ff' !! k = ff !! k.
Proof. unfold deriveColor. frame_step. Qed.

Lemma deriveLink_frame obj offset ff ff' k :
  deriveLink obj offset ff = Ok ff' -> k ≠ "link" -> ff' !! k = ff !! k.
Proof. unfold deriveLink. frame_step. Qed.

Lemma deriveLinePrefix_frame offset ff ff' k :
  deriveLinePrefix offset ff = Ok ff' -> k ≠ "line-prefix" -> ff' !! k = ff !! k.
Proof. unfold deriveLinePrefix. frame_step. Qed.

Lemma deriveCaretPosition_frame obj ff k :
  k ≠ "page-number" -> k ≠ "line-number" -> deriveCaretPosition obj ff !! k = ff !! k.
Proof. unfold deriveCaretPosition. frame_step. Qed.

Lemma parse_Ok raw obj offset out :
  parse raw obj offset = Ok out -> parse_trace raw obj offset out.
Proof.
  unfold parse. intros Hp. unfold mbind at 1, result_bind at 1 in Hp.
  destruct (deriveTextPosition raw) as [f1|] eqn:E1; [|discriminate Hp]; cbn [mbind result_bind] in Hp.
  destruct (deriveFontName f1) as [f2|] eqn:E2; [|discriminate Hp]; cbn [mbind result_bind] in Hp.
  destruct (deriveFontSize f2) as [f3|] eqn:E3; [|discriminate Hp]; cbn [mbind result_bind] in Hp.
  destruct (deriveItalic f3) as [f4|] eqn:E4; [|discriminate Hp]; cbn [mbind result_bind] in Hp.
  destruct (deriveStrikethrough f4) as [f5|] eqn:E5; [|discriminate Hp]; cbn [mbind result_bind] in Hp.
  destruct (deriveUnderline f5) as [f6|] eqn:E6; [|discriminate Hp]; cbn [mbind result_bind] in Hp.
  destruct (deriveBold f6) as [f7|] eqn:E7; [|discriminate Hp]; cbn [mbind result_bind] in Hp.
  destruct (deriveColor "CharColor" "color" f7) as [f8|] eqn:E8; [|discriminate Hp]; cbn [mbind result_bind] in Hp.
  destruct (deriveColor "CharBackColor" "background-color" f8) as [f9|] eqn:E9; [|discriminate Hp]; cbn [mbind result_bind] in Hp.
  destruct (deriveLink obj offset f9) as [f10|] eqn:E10; [|discriminate Hp]; cbn [mbind result_bind] in Hp.
  destruct (deriveLinePrefix offset f10) as [f11|] eqn:E11; [|discriminate Hp]; cbn [mbind result_bind] in Hp.
  simpl in Hp. injection Hp as <-. by econstructor.
Qed.

Ltac frames :=
  repeat match goal with
  | Hs : deriveTextPosition ?a = Ok ?b |- context [?b !! ?k] =>
      rewrite (deriveTextPosition_frame a b k Hs) by done
  | Hs : deriveFontName ?a = Ok ?b |- context [?b !! ?k] =>
      rewrite (deriveFontName_frame a b k Hs) by done
  | Hs : deriveFontSize ?a = Ok ?b |- context [?b !! ?k] =>
      rewrite (deriveFontSize_frame a b k Hs) by done
  | Hs : deriveItalic ?a = Ok ?b |- context [?b !! ?k] =>
      rewrite (deriveItalic_frame a b k Hs) by done
  | Hs : deriveStrikethrough ?a = Ok ?b |- context [?b !! ?k] =>
      rewrite (deriveStrikethrough_frame a b k Hs) by done
  | Hs : deriveUnderline ?a = Ok ?b |- context [?b !! ?k] =>
      rewrite (deriveUnderline_frame a b k Hs) by done
  | Hs : deriveBold ?a = Ok ?b |- context [?b !! ?k] =>
      rewrite (deriveBold_frame a b k Hs) by done
  | Hs : deriveColor ?s ?t ?a = Ok ?b |- context [?b !! ?k] =>
      rewrite (deriveColor_frame s t a b k Hs) by done
  | Hs : deriveLink ?o ?i ?a = Ok ?b |- context [?b !! ?k] =>
      rewrite (deriveLink_frame o i a b k Hs) by done
  | Hs : deriveLinePrefix ?i ?a = Ok ?b |- context [?b !! ?k] =>
      rewrite (deriveLinePrefix_frame i a b k Hs) by done
  | |- context [deriveCaretPosition ?o ?a !! ?k] =>
      rewrite (deriveCaretPosition_frame o a k) by done
  end.

(** Outside the derived names and the two colour sources, the output is
    the input. *)
Lemma parse_frame raw obj offset out k :
  parse raw obj offset = Ok out ->
  k ∉ derivedKeys -> k ≠ "CharColor" -> k ≠ "CharBackColor" ->
  out !! k = raw !! k.
Proof.
  intros Hp Hk Hc Hb. destruct (parse_Ok _ _ _ _ Hp). subst out.
  unfold derivedKeys in Hk. rewrite !not_elem_of_cons in Hk.
  destruct Hk as (?&?&?&?&?&?&?&?&?&?&?&?&?&?&_).
  by frames.
Qed.

(** ** What each derivation stores *)

Lemma deriveFontSize_spec ff ff' v :
  deriveFontSize ff = Ok ff' -> ff !! "CharHeight" = Some v ->
  exists size, format_pt v = Ok size /\ ff' = <["font-size" := VStr size]> ff.
Proof. unfold deriveFontSize. intros Hs Hv. rewrite Hv in Hs. step_cases. eauto. Qed.

Lemma deriveUnderline_spec ff ff' underline :
  deriveUnderline ff = Ok ff' -> ff !! "CharUnderline" = Some underline ->
  ff' = if eq_str underline "10"
        then <["invalid-spelling" := VBool true]> ff
        else <["underline" := VBool (negb (eq_str underline "0"))]> ff.
Proof. unfold deriveUnderline. intros Hs Hv. rewrite Hv in Hs. by step_cases. Qed.

Lemma deriveBold_spec ff ff' v :
  deriveBold ff = Ok ff' -> ff !! "CharWeight" = Some v ->
  exists bold, float_gt_100 v = Ok bold /\ ff' = <["bold" := VBool bold]> ff.
Proof. unfold deriveBold. intros Hs Hv. rewrite Hv in Hs. step_cases. eauto. Qed.

Lemma deriveColor_source source target ff ff' :
  source ≠ target -> deriveColor source target ff = Ok ff' -> ff' !! source = None.
Proof.
  unfold deriveColor. intros Hne Hs. step_cases;
    rewrite ?lookup_insert_ne by done; apply lookup_delete_eq.
Qed.

(** ** Keys that stay *)

Ltac keeps_step :=
  intros; step_cases;
  rewrite ?lookup_insert_is_Some', ?lookup_delete_is_Some; auto.

Lemma parse_keeps raw obj offset out k :
  parse raw obj offset = Ok out ->
  is_Some (raw !! k) -> k ≠ "CharColor" -> k ≠ "CharBackColor" ->
  is_Some (out !! k).
Proof.
  intros Hp Hk Hc Hb. destruct (parse_Ok _ _ _ _ Hp). subst out.
  assert (is_Some (ff1 !! k)) by (revert step1; unfold deriveTextPosition; keeps_step).
  assert (is_Some (ff2 !! k)) by (revert step2; unfold deriveFontName; keeps_step).
  assert (is_Some (ff3 !! k)) by (revert step3; unfold deriveFontSize; keeps_step).
  assert (is_Some (ff4 !! k)) by (revert step4; unfold deriveItalic; keeps_step).
  assert (is_Some (ff5 !! k)) by (revert step5; unfold deriveStrikethrough; keeps_step).
  assert (is_Some (ff6 !! k)) by (revert step6; unfold deriveUnderline; keeps_step).
  assert (is_Some (ff7 !! k)) by (revert step7; unfold deriveBold; keeps_step).
  assert (is_Some (ff8 !! k)) by (revert step8; unfold deriveColor; keeps_step).
  assert (is_Some (ff9 !! k)) by (revert step9; unfold deriveColor; keeps_step).
  assert (is_Some (ff10 !! k)) by (revert step10; unfold deriveLink; keeps_step).
  assert (is_Some (ff11 !! k)) by (revert step11; unfold deriveLinePrefix; keeps_step).
  unfold deriveCaretPosition. keeps_step.
Qed.

Lemma parse_pops raw obj offset out :
  parse raw obj offset = Ok out ->
  out !! "CharColor" = None /\ out !! "CharBackColor" = None.
Proof.
  intros Hp. destruct (parse_Ok _ _ _ _ Hp). subst out. split.
  - rewrite deriveCaretPosition_frame by done.
    rewrite (deriveLinePrefix_frame _ _ _ _ step11) by done.
    rewrite (deriveLink_frame _ _ _ _ _ step10) by done.
    rewrite (deriveColor_frame _ _ _ _ _ step9) by done.
    by apply (deriveColor_source "CharColor" "color" ff7).
  - rewrite deriveCaretPosition_frame by done.
    rewrite (deriveLinePrefix_frame _ _ _ _ step11) by done.
    rewrite (deriveLink_frame _ _ _ _ _ step10) by done.
    by apply (deriveColor_source "CharBackColor" "background-color" ff8).
Qed.

(** ** Malformed numbers *)

Lemma parse_bad_escapement raw obj offset s :
  raw !! "CharEscapement" = Some (VStr s) ->
  raises (Py.int (list_ascii_of_string s)) ->
  parse raw obj offset = Raise ValueError.
Proof.
  intros Hraw [e He]. unfold parse, deriveTextPosition. rewrite Hraw. simpl.
  rewrite He. by rewrite (int_raises_ValueError _ _ He).
Qed.

Lemma parse_bad_weight raw obj offset s :
  raw !! "CharWeight" = Some (VStr s) -> float_of_str s = None ->
  raises (parse raw obj offset).
Proof.
  intros Hraw Hs. destruct (parse raw obj offset) as [out|e] eqn:Hp; [|by exists e].
  destruct (parse_Ok _ _ _ _ Hp).
  assert (Hw : ff6 !! "CharWeight" = Some (VStr s)) by (by frames).
  destruct (deriveBold_spec _ _ _ step7 Hw) as (bold & Hb & _).
  simpl in Hb. by rewrite Hs in Hb.
Qed.

Lemma parse_bad_weight_strings raw obj offset s :
  strings_only raw ->
  raw !! "CharWeight" = Some (VStr s) -> float_of_str s = None ->
  parse raw obj offset = Raise ValueError.
Proof.
  intros Hstr Hraw Hs. unfold parse.
  destruct (deriveTextPosition raw) as [f1|e] eqn:E1; cbn [mbind result_bind].
  2:{ revert E1. unfold deriveTextPosition.
      destruct (raw !! "CharEscapement") as [v|] eqn:Ev; [|done].
      destruct (Hstr _ _ Ev) as [t ->]. simpl.
      destruct (Py.int _) eqn:Ei; [done|]. simpl. intros [= <-].
      by rewrite (int_raises_ValueError _ _ Ei). }
  destruct (deriveFontName f1) as [f2|e] eqn:E2; cbn [mbind result_bind].
  2:{ revert E2. unfold deriveFontName. by step_cases. }
  destruct (deriveFontSize f2) as [f3|e] eqn:E3; cbn [mbind result_bind].
  2:{ assert (Hh : f2 !! "CharHeight" = raw !! "CharHeight") by (by frames).
      revert E3. unfold deriveFontSize. rewrite Hh.
      destruct (raw !! "CharHeight") as [v|] eqn:Ev; [|done].
      by destruct (Hstr _ _ Ev) as [t ->]. }
  destruct (deriveItalic f3) as [f4|e] eqn:E4; cbn [mbind result_bind].
  2:{ revert E4. unfold deriveItalic. by step_cases. }
  destruct (deriveStrikethrough f4) as [f5|e] eqn:E5; cbn [mbind result_bind].
  2:{ revert E5. unfold deriveStrikethrough. by step_cases. }
  destruct (deriveUnderline f5) as [f6|e] eqn:E6; cbn [mbind result_bind].
  2:{ revert E6. unfold deriveUnderline. by step_cases. }
  assert (Hw : f6 !! "CharWeight" = Some (VStr s)) by (by frames).
  unfold deriveBold. rewrite Hw. simpl. by rewrite Hs.
Qed.

(** ** When [parse] returns *)

(** On a mapping from strings to strings, [parse] returns as soon as the
    escapement, the weight and the two colours, where present, are well
    formed, and no numbering is given as a plain string at offset 0. *)
Lemma parse_returns raw obj offset :
  strings_only raw ->
  (forall s, raw !! "CharEscapement" = Some (VStr s) ->
             returns (Py.int (list_ascii_of_string s))) ->
  (forall s, raw !! "CharWeight" = Some (VStr s) -> is_Some (float_of_str s)) ->
  (forall s, raw !! "CharColor" = Some (VStr s) -> s ≠ "" ->
             returns (RGB_fromString (VStr s))) ->
  (forall s, raw !! "CharBackColor" = Some (VStr s) -> s ≠ "" ->
             returns (RGB_fromString (VStr s))) ->
  (offset = 0 -> forall s, raw !! "Numbering" = Some (VStr s) -> s = "") ->
  returns (parse raw obj offset).
Proof.
  intros Hstr Hesc Hweight Hcolor Hback Hnum. unfold parse.
  destruct (deriveTextPosition raw) as [f1|e] eqn:E1; cbn [mbind result_bind].
  2:{ revert E1. unfold deriveTextPosition.
      destruct (raw !! "CharEscapement") as [v|] eqn:Ev; [|done].
      destruct (Hstr _ _ Ev) as [t ->]. destruct (Hesc _ eq_refl) as [z Hz].
      simpl. by rewrite Hz. }
  destruct (deriveFontName f1) as [f2|e] eqn:E2; cbn [mbind result_bind].
  2:{ revert E2. unfold deriveFontName. by step_cases. }
  destruct (deriveFontSize f2) as [f3|e] eqn:E3; cbn [mbind result_bind].
  2:{ assert (Hh : f2 !! "CharHeight" = raw !! "CharHeight") by (by frames).
      revert E3. unfold deriveFontSize. rewrite Hh.
      destruct (raw !! "CharHeight") as [v|] eqn:Ev; [|done].
      by destruct (Hstr _ _ Ev) as [t ->]. }
  destruct (deriveItalic f3) as [f4|e] eqn:E4; cbn [mbind result_bind].
  2:{ revert E4. unfold deriveItalic. by step_cases. }
  destruct (deriveStrikethrough f4) as [f5|e] eqn:E5; cbn [mbind result_bind].
  2:{ revert E5. unfold deriveStrikethrough. by step_cases. }
  destruct (deriveUnderline f5) as [f6|e] eqn:E6; cbn [mbind result_bind].
  2:{ revert E6. unfold deriveUnderline. by step_cases. }
  destruct (deriveBold f6) as [f7|e] eqn:E7; cbn [mbind result_bind].
  2:{ assert (Hw : f6 !! "CharWeight" = raw !! "CharWeight") by (by frames).
      revert E7. unfold deriveBold. rewrite Hw.
      destruct (raw !! "CharWeight") as [v|] eqn:Ev; [|done].
      destruct (Hstr _ _ Ev) as [t ->]. destruct (Hweight _ eq_refl) as [x Hx].
      simpl. by rewrite Hx. }
  destruct (deriveColor "CharColor" "color" f7) as [f8|e] eqn:E8;
    cbn [mbind result_bind].
  2:{ assert (Hc : f7 !! "CharColor" = raw !! "CharColor") by (by frames).
      revert E8. unfold deriveColor. rewrite Hc.
      destruct (raw !! "CharColor") as [v|] eqn:Ev; [|done].
      destruct (Hstr _ _ Ev) as [t ->]. simpl.
      destruct (String.eqb_spec t ""); [done|].
      destruct (Hcolor _ eq_refl ltac:(done)) as [c ->]. done. }
  destruct (deriveColor "CharBackColor" "background-color" f8) as [f9|e] eqn:E9;
    cbn [mbind result_bind].
  2:{ assert (Hc : f8 !! "CharBackColor" = raw !! "CharBackColor") by (by frames).
      revert E9. unfold deriveColor. rewrite Hc.
      destruct (raw !! "CharBackColor") as [v|] eqn:Ev; [|done].
      destruct (Hstr _ _ Ev) as [t ->]. simpl.
      destruct (String.eqb_spec t ""); [done|].
      destruct (Hback _ eq_refl ltac:(done)) as [c ->]. done. }
  destruct (deriveLink obj offset f9) as [f10|e] eqn:E10; cbn [mbind result_bind].
  2:{ revert E10. unfold deriveLink. by step_cases. }
  destruct (deriveLinePrefix offset f10) as [f11|e] eqn:E11; cbn [mbind result_bind].
  2:{ assert (Hn : f10 !! "Numbering" = raw !! "Numbering") by (by frames).
      revert E11. unfold deriveLinePrefix. rewrite Hn.
      destruct (Z.eqb_spec offset 0) as [Hz|]; [|done].
      destruct (raw !! "Numbering") as [v|] eqn:Ev; [|done].
      destruct (Hstr _ _ Ev) as [t ->]. by rewrite (Hnum Hz _ eq_refl). }
  by eexists.
Qed.

(** When the string before cannot be read either, the format field is
    derived from no attribute at all. *)
Lemma previous_attributes_unavailable obj offset startOffset endOffset :
  attributes obj offset = Some (startOffset, endOffset, "") ->
  attributes obj (offset - 1) = None ->
  _getFormatFieldAndOffsets obj offset =
    (formatField ← parse ∅ obj offset; Ok (formatField, (startOffset, endOffset))).
Proof.
  intros Hhere Hprev. unfold _getFormatFieldAndOffsets, attribsStringAt.
  rewrite Hhere. simpl. rewrite Hprev. simpl. by destruct (offset >? 0).
Qed.

(** ** The claims on the format field *)

(** Claim C2, as amended: when the weight is a number, [parse] stores under
    [bold] whether it is above 100: [True] above 100 and [False], not a
    missing key, at 100 or below. *)
Theorem bold_is_weight_above_100 raw obj offset out w x :
  raw !! "CharWeight" = Some (VStr w) ->
  float_of_str w = Some x ->
  parse raw obj offset = Ok out ->
  out !! "bold" = Some (VBool (float_gt x 100)).
Proof.
  intros Hraw Hx Hp. destruct (parse_Ok _ _ _ _ Hp). subst out.
  assert (Hw : ff6 !! "CharWeight" = Some (VStr w)) by (by frames).
  destruct (deriveBold_spec _ _ _ step7 Hw) as (bold & Hb & ->).
  simpl in Hb. rewrite Hx in Hb. injection Hb as <-.
  frames. apply lookup_insert_eq.
Qed.

(** Claim C3, as amended: a weight or an escapement that is not a number
    makes the whole of [parse] raise [ValueError]; the font height is not
    read as a number at all: whatever string it is, the font size is that
    string followed by [pt]. *)
Theorem malformed_number_raises raw obj offset :
  (forall s, raw !! "CharEscapement" = Some (VStr s) ->
             raises (Py.int (list_ascii_of_string s)) ->
             parse raw obj offset = Raise ValueError) /\
  (forall s, raw !! "CharWeight" = Some (VStr s) -> float_of_str s = None ->
             raises (parse raw obj offset) /\
             (strings_only raw -> parse raw obj offset = Raise ValueError)) /\
  (forall s out, raw !! "CharHeight" = Some (VStr s) ->
                 parse raw obj offset = Ok out ->
                 out !! "font-size" = Some (VStr (s +:+ "pt"))).
Proof.
  split; [|split].
  - intros s. apply parse_bad_escapement.
  - intros s Hraw Hs. split.
    + by apply (parse_bad_weight _ _ _ s).
    + intros Hstr. by apply (parse_bad_weight_strings _ _ _ s).
  - intros s out Hraw Hp. destruct (parse_Ok _ _ _ _ Hp). subst out.
    assert (Hh : ff2 !! "CharHeight" = Some (VStr s)) by (by frames).
    destruct (deriveFontSize_spec _ _ _ step3 Hh) as (size & Hsize & ->).
    injection Hsize as <-. frames. apply lookup_insert_eq.
Qed.

(** Claim C4, as amended: every key of the input other than [CharColor]
    and [CharBackColor] is a key of the output, unrecognized keys and the
    source keys of the derivations alike, and keeps its value unless a
    derivation stores under that very name; [CharColor] and
    [CharBackColor] are the only keys removed. *)
Theorem input_keys_pass_through raw obj offset out :
  parse raw obj offset = Ok out ->
  (forall k, is_Some (raw !! k) -> k ≠ "CharColor" -> k ≠ "CharBackColor" ->
             is_Some (out !! k)) /\
  (forall k, k ∉ derivedKeys -> k ≠ "CharColor" -> k ≠ "CharBackColor" ->
             out !! k = raw !! k) /\
  out !! "CharColor" = None /\ out !! "CharBackColor" = None.
Proof.
  intros Hp. split; [|split].
  - intros k. by apply parse_keeps with obj offset.
  - intros k. by apply parse_frame with obj offset.
  - by apply parse_pops with raw obj offset.
Qed.

(** Claim C6, as amended: with an underline code in the input, the output
    has [invalid-spelling = True] when the code is the wave code ["10"],
    and [underline = (code != "0")] otherwise; the other of the two keys is
    in the output only if the input itself had it, so that both are never
    present unless the input had one of them as a key. *)
Theorem underline_or_invalid_spelling raw obj offset out code :
  raw !! "CharUnderline" = Some code ->
  parse raw obj offset = Ok out ->
  (if eq_str code "10"
   then out !! "invalid-spelling" = Some (VBool true) /\
        out !! "underline" = raw !! "underline"
   else out !! "underline" = Some (VBool (negb (eq_str code "0"))) /\
        out !! "invalid-spelling" = raw !! "invalid-spelling") /\
  (raw !! "underline" = None -> raw !! "invalid-spelling" = None ->
   ~ (is_Some (out !! "underline") /\ is_Some (out !! "invalid-spelling"))).
Proof.
  intros Hraw Hp. destruct (parse_Ok _ _ _ _ Hp). subst out.
  assert (Hu : ff5 !! "CharUnderline" = Some code) by (by frames).
  pose proof (deriveUnderline_spec _ _ _ step6 Hu) as Hff6.
  assert (Hcases :
    if eq_str code "10"
    then deriveCaretPosition obj ff11 !! "invalid-spelling" = Some (VBool true) /\
         deriveCaretPosition obj ff11 !! "underline" = raw !! "underline"
    else deriveCaretPosition obj ff11 !! "underline"
           = Some (VBool (negb (eq_str code "0"))) /\
         deriveCaretPosition obj ff11 !! "invalid-spelling"
           = raw !! "invalid-spelling").
  { destruct (eq_str code "10"); frames; subst ff6; split.
    - apply lookup_insert_eq.
    - rewrite lookup_insert_ne by done. by frames.
    - apply lookup_insert_eq.
    - rewrite lookup_insert_ne by done. by frames. }
  split; [done|].
  intros Hnu Hni [Hu' Hi'].
  destruct (eq_str code "10"); destruct Hcases as [H1 H2].
  - rewrite H2, Hnu in Hu'. by destruct Hu'.
  - rewrite H2, Hni in Hi'. by destruct Hi'.
Qed.

(** Claim C9: when the attribute string at the offset is empty and the
    offset is above zero, the attribute string of the offset before takes
    its place: the format field is the one [parse] derives from that
    string, returned with the offsets of the queried run. *)
Theorem previous_attributes_reused obj offset startOffset endOffset previous :
  0 < offset ->
  attributes obj offset = Some (startOffset, endOffset, "") ->
  attributes obj (offset - 1) = Some previous ->
  _getFormatFieldAndOffsets obj offset =
    (formatField ← parse (updateFromString previous.2) obj offset;
     Ok (formatField, (startOffset, endOffset))).
Proof.
  intros Hpos Hhere Hprev. unfold _getFormatFieldAndOffsets, attribsStringAt.
  rewrite Hhere. simpl. rewrite Hprev. simpl.
  destruct (Z.gtb_spec offset 0); [done|lia].
Qed.

(** ** More on what [parse] derives *)

(** The text position follows the sign of the escapement: [sub] below
    zero, [super] above zero, [baseline] at zero. *)
Theorem text_position_follows_sign raw obj offset out s escapement :
  raw !! "CharEscapement" = Some (VStr s) ->
  Py.int (list_ascii_of_string s) = Ok escapement ->
  parse raw obj offset = Ok out ->
  (escapement < 0 -> out !! "text-position" = Some (VStr "sub")) /\
  (0 < escapement -> out !! "text-position" = Some (VStr "super")) /\
  (escapement = 0 -> out !! "text-position" = Some (VStr "baseline")).
Proof.
  intros Hraw Hint Hp. destruct (parse_Ok _ _ _ _ Hp). subst out. frames.
  unfold deriveTextPosition in step1. rewrite Hraw in step1. simpl in step1.
  rewrite Hint in step1. simpl in step1. injection step1 as <-.
  rewrite lookup_insert_eq.
  destruct (Z.ltb_spec escapement 0), (Z.gtb_spec escapement 0);
    repeat split; intros; try lia; done.
Qed.

(** The key [link] is set to [True] exactly when the offset lies in a
    hyperlink; when it does not, or when asking raises [COMError], the key
    is left as the attributes have it. *)
Theorem link_follows_hyperlink raw obj offset out :
  parse raw obj offset = Ok out ->
  out !! "link" =
    match hyperlinkIndex obj offset with
    | Some index => if index =? -1 then raw !! "link" else Some (VBool true)
    | None => raw !! "link"
    end.
Proof.
  intros Hp. destruct (parse_Ok _ _ _ _ Hp). subst out. frames.
  assert (Hraw : ff9 !! "link" = raw !! "link") by (by frames).
  unfold deriveLink, except_COMError, call in step10.
  destruct (hyperlinkIndex obj offset) as [index|]; simpl in step10.
  - destruct (index =? -1); simpl in step10; injection step10 as <-; [done|].
    apply lookup_insert_eq.
  - by injection step10 as <-.
Qed.

(** The line prefix is derived at offset 0 only: elsewhere the key is left
    as the attributes have it; at offset 0 a non-empty numbering gives its
    prefix when that is not empty and its bullet character otherwise. *)
Theorem line_prefix_at_offset_zero raw obj offset out :
  parse raw obj offset = Ok out ->
  (offset <> 0 -> out !! "line-prefix" = raw !! "line-prefix") /\
  (forall numbering,
     offset = 0 -> raw !! "Numbering" = Some (VDict numbering) -> numbering <> ∅ ->
     out !! "line-prefix" =
       Some match numbering !! "NumberingPrefix" with
            | Some prefix =>
                if String.eqb prefix ""
                then from_option VStr VNone (numbering !! "BulletChar")
                else VStr prefix
            | None => from_option VStr VNone (numbering !! "BulletChar")
            end).
Proof.
  intros Hp. destruct (parse_Ok _ _ _ _ Hp). subst out. frames.
  assert (Hn : ff10 !! "Numbering" = raw !! "Numbering") by (by frames).
  assert (Hl : ff10 !! "line-prefix" = raw !! "line-prefix") by (by frames).
  unfold deriveLinePrefix in step11. split.
  - intros Hne. destruct (Z.eqb_spec offset 0); [done|]. by injection step11 as <-.
  - intros numbering -> Hraw Hnumbering. rewrite Hn, Hraw in step11.
    simpl in step11. rewrite bool_decide_eq_false_2 in step11 by done.
    simpl in step11.
    destruct (numbering !! "NumberingPrefix") as [prefix|];
      [destruct (String.eqb prefix "")|]; simpl in step11;
      injection step11 as <-; apply lookup_insert_eq.
Qed.

(** The page number and the line number are taken from the document only
    when the object has the focus and the document can be reached;
    otherwise, and for a number the document does not give, the key is left
    as the attributes have it. *)
Theorem caret_position_needs_focus raw obj offset out key :
  key = "page-number" \/ key = "line-number" ->
  parse raw obj offset = Ok out ->
  out !! key =
    match hasFocus obj, docAttribs obj with
    | true, Some attribs =>
        match attribs !! key with
        | Some number => Some number
        | None => raw !! key
        end
    | _, _ => raw !! key
    end.
Proof.
  intros Hkey Hp. destruct (parse_Ok _ _ _ _ Hp). subst out.
  assert (Hraw : ff11 !! key = raw !! key) by (destruct Hkey; subst key; by frames).
  unfold deriveCaretPosition.
  destruct (hasFocus obj); [|done]. destruct (docAttribs obj) as [attribs|]; [|done].
  destruct Hkey; subst key.
  - destruct (attribs !! "page-number"), (attribs !! "line-number");
      rewrite ?lookup_insert_eq, ?lookup_insert_ne by done; by rewrite ?lookup_insert_eq.
  - destruct (attribs !! "page-number"), (attribs !! "line-number");
      rewrite ?lookup_insert_eq, ?lookup_insert_ne by done; by rewrite ?lookup_insert_eq.
Qed.

(** A non-empty colour is stored as an RGB value under [color], and
    [parse] returns only if [colors.RGB.fromString] accepts it; an empty
    or missing colour leaves [color] as the attributes have it. *)
Theorem color_is_parsed raw obj offset out :
  parse raw obj offset = Ok out ->
  match raw !! "CharColor" with
  | Some color =>
      if truthy color
      then exists rgb, RGB_fromString color = Ok rgb /\
                       out !! "color" = Some (VColor rgb)
      else out !! "color" = raw !! "color"
  | None => out !! "color" = raw !! "color"
  end.
Proof.
  intros Hp. destruct (parse_Ok _ _ _ _ Hp). subst out. frames.
  assert (Hc : ff7 !! "CharColor" = raw !! "CharColor") by (by frames).
  assert (Hk : ff7 !! "color" = raw !! "color") by (by frames).
  unfold deriveColor in step8. rewrite Hc in step8.
  destruct (raw !! "CharColor") as [color|].
  - destruct (truthy color).
    + destruct (RGB_fromString color) as [rgb|] eqn:E; [|done].
      simpl in step8. injection step8 as <-. exists rgb. split; [done|].
      apply lookup_insert_eq.
    + injection step8 as <-. by rewrite lookup_delete_ne.
  - injection step8 as <-. by rewrite lookup_delete_ne.
Qed.

(** ** COM errors *)

Lemma bind_no_COMError {A B : Type} (r : result A) (k : A -> result B) :
  no_COMError r -> (forall a, no_COMError (k a)) -> no_COMError (r ≫= k).
Proof.
  intros Hr Hk. destruct r as [a|e]; [apply Hk|].
  intros E. apply Hr. cbn in E. by injection E as ->.
Qed.

Lemma parse_no_COMError raw obj offset :
  (forall color, no_COMError (RGB_fromString color)) ->
  no_COMError (parse raw obj offset).
Proof.
  intros Hrgb. unfold parse.
  repeat (apply bind_no_COMError; [|intros ?]); try done.
  - unfold deriveTextPosition. destruct (_ !! _) as [v|]; [|done].
    apply bind_no_COMError; [|done]. destruct v; try done.
    simpl. unfold Py.int. by repeat case_match.
  - unfold deriveFontName. by case_match.
  - unfold deriveFontSize. destruct (_ !! _) as [v|]; [|done].
    apply bind_no_COMError; [|done]. by destruct v.
  - unfold deriveItalic. by case_match.
  - unfold deriveStrikethrough. by case_match.
  - unfold deriveUnderline. by repeat case_match.
  - unfold deriveBold. destruct (_ !! _) as [v|]; [|done].
    apply bind_no_COMError; [|done]. destruct v; try done. simpl. by case_match.
  - unfold deriveColor. destruct (_ !! _) as [v|]; [|done].
    destruct (truthy v); [|done]. apply bind_no_COMError; [apply Hrgb|done].
  - unfold deriveColor. destruct (_ !! _) as [v|]; [|done].
    destruct (truthy v); [|done]. apply bind_no_COMError; [apply Hrgb|done].
  - unfold deriveLink, except_COMError, call.
    destruct (hyperlinkIndex obj offset) as [index|]; simpl; [|done].
    by destruct (negb (index =? -1)).
  - unfold deriveLinePrefix. destruct (offset =? 0); [|done].
    destruct (_ !! _) as [v|]; [|done]. destruct (truthy v); [|done].
    apply bind_no_COMError; [|done]. destruct v; try done.
    simpl. by repeat case_match.
Qed.

(** No COM error leaves the function, as long as
    [colors.RGB.fromString] raises none: when the attributes at the offset
    cannot be read, an empty format field is returned with the offsets of
    the text info itself; a failure to read the attributes before, or the
    hyperlink, is passed over. *)
Theorem COM_errors_are_absorbed obj offset :
  (attributes obj offset = None ->
   _getFormatFieldAndOffsets obj offset = Ok (∅, (_startOffset obj, _endOffset obj))) /\
  ((forall color, RGB_fromString color <> Raise COMError) ->
   _getFormatFieldAndOffsets obj offset <> Raise COMError).
Proof.
  unfold _getFormatFieldAndOffsets. split.
  - by intros ->.
  - intros Hrgb. unfold except_COMError, call.
    destruct (attributes obj offset) as [[[startOffset endOffset] attribsString]|];
      [|done].
    cbn [mbind result_bind]. apply bind_no_COMError.
    + unfold attribsStringAt, except_COMError, call.
      destruct (_ && _); [|done]. by destruct (attributes obj (offset - 1)).
    + intros s. apply bind_no_COMError; [by apply parse_no_COMError|done].
Qed.

End FormatFieldProperties.

(** ** The format field on examples *)

(** The weight 150 gives [bold = True]. *)
Lemma bold_is_weight_above_100_witness :
  parse (H := exampleExternals) {[ "CharWeight" := VStr "150" ]} exampleParagraph 0
    = Ok {[ "CharWeight" := VStr "150"; "bold" := VBool true ]}
  /\ ({[ "CharWeight" := VStr "150"; "bold" := VBool true ]} : FormatField) !! "bold"
     = Some (VBool true).
Proof.
  split; [by vm_compute|].
  apply (bold_is_weight_above_100 (H := exampleExternals)
           {[ "CharWeight" := VStr "150" ]} exampleParagraph 0 _ "150" 150);
    by vm_compute.
Defined.

(** The weight 90 gives [bold = False]: the key is there. *)
Lemma bold_false_is_stored :
  parse (H := exampleExternals) {[ "CharWeight" := VStr "90" ]} exampleParagraph 0
    = Ok {[ "CharWeight" := VStr "90"; "bold" := VBool false ]}
  /\ ({[ "CharWeight" := VStr "90"; "bold" := VBool false ]} : FormatField) !! "bold"
     ≠ None.
Proof. split; by vm_compute. Qed.

Lemma malformed_number_raises_witness :
  parse (H := exampleExternals) {[ "CharEscapement" := VStr "high" ]} exampleParagraph 0
    = Raise ValueError
  /\ parse (H := exampleExternals) {[ "CharWeight" := VStr "heavy" ]} exampleParagraph 0
    = Raise ValueError
  /\ parse (H := exampleExternals) {[ "CharHeight" := VStr "tall" ]} exampleParagraph 0
    = Ok {[ "CharHeight" := VStr "tall"; "font-size" := VStr "tallpt" ]}
  /\ ({[ "CharHeight" := VStr "tall"; "font-size" := VStr "tallpt" ]} : FormatField)
       !! "font-size" = Some (VStr "tallpt").
Proof.
  split; [|split; [|split]].
  - apply (proj1 (malformed_number_raises (H := exampleExternals)
             {[ "CharEscapement" := VStr "high" ]} exampleParagraph 0) "high");
      [by vm_compute | by exists ValueError].
  - apply (proj1 (proj2 (malformed_number_raises (H := exampleExternals)
             {[ "CharWeight" := VStr "heavy" ]} exampleParagraph 0)) "heavy");
      [by vm_compute | by vm_compute |].
    intros k v Hk. apply lookup_singleton_Some in Hk as [_ <-]. by exists "heavy".
  - by vm_compute.
  - apply (proj2 (proj2 (malformed_number_raises (H := exampleExternals)
             {[ "CharHeight" := VStr "tall" ]} exampleParagraph 0)) "tall");
      by vm_compute.
Defined.

(** A weight that is not a number: [parse] raises. *)
Lemma malformed_weight_is_fatal :
  parse (H := exampleExternals) {[ "CharWeight" := VStr "not-a-number" ]}
    exampleParagraph 0 = Raise ValueError.
Proof. by vm_compute. Qed.

Lemma input_keys_pass_through_witness :
  parse (H := exampleExternals) {[ "CharWeight" := VStr "150" ]} exampleParagraph 0
    = Ok {[ "CharWeight" := VStr "150"; "bold" := VBool true ]}
  /\ is_Some (({[ "CharWeight" := VStr "150"; "bold" := VBool true ]} : FormatField)
                !! "CharWeight").
Proof.
  assert (Hp : parse (H := exampleExternals) {[ "CharWeight" := VStr "150" ]}
                 exampleParagraph 0
               = Ok {[ "CharWeight" := VStr "150"; "bold" := VBool true ]})
    by (by vm_compute).
  split; [exact Hp|].
  apply (proj1 (input_keys_pass_through _ _ _ _ Hp) "CharWeight");
    [by eexists | done | done].
Defined.

(** An unknown key and a source key are both in the output. *)
Lemma unknown_and_source_keys_stay :
  parse (H := exampleExternals)
    {[ "language" := VStr "en"; "CharWeight" := VStr "150" ]} exampleParagraph 0
    = Ok {[ "language" := VStr "en"; "CharWeight" := VStr "150"; "bold" := VBool true ]}
  /\ ({[ "language" := VStr "en"; "CharWeight" := VStr "150"; "bold" := VBool true ]}
        : FormatField) !! "language" = Some (VStr "en")
  /\ ({[ "language" := VStr "en"; "CharWeight" := VStr "150"; "bold" := VBool true ]}
        : FormatField) !! "CharWeight" = Some (VStr "150").
Proof. repeat split; by vm_compute. Qed.

Lemma underline_or_invalid_spelling_witness :
  parse (H := exampleExternals) {[ "CharUnderline" := VStr "10" ]} exampleParagraph 0
    = Ok {[ "CharUnderline" := VStr "10"; "invalid-spelling" := VBool true ]}
  /\ ({[ "CharUnderline" := VStr "10"; "invalid-spelling" := VBool true ]} : FormatField)
    !! "invalid-spelling" = Some (VBool true)
  /\ ({[ "CharUnderline" := VStr "10"; "invalid-spelling" := VBool true ]} : FormatField)
    !! "underline" = None.
Proof.
  assert (Hp : parse (H := exampleExternals) {[ "CharUnderline" := VStr "10" ]}
                 exampleParagraph 0
               = Ok {[ "CharUnderline" := VStr "10"; "invalid-spelling" := VBool true ]})
    by (by vm_compute).
  assert (Hc : ({[ "CharUnderline" := VStr "10" ]} : FormatField) !! "CharUnderline"
               = Some (VStr "10")) by (by vm_compute).
  split; [exact Hp|].
  apply (proj1 (underline_or_invalid_spelling _ _ _ _ _ Hc Hp)).
Defined.

(** An input that has the wave code and a key named [underline]: the
    output has both [invalid-spelling] and [underline]. *)
Lemma underline_beside_invalid_spelling :
  parse (H := exampleExternals)
    {[ "CharUnderline" := VStr "10"; "underline" := VStr "1" ]} exampleParagraph 0
    = Ok {[ "CharUnderline" := VStr "10"; "underline" := VStr "1";
            "invalid-spelling" := VBool true ]}
  /\ ({[ "CharUnderline" := VStr "10"; "underline" := VStr "1";
         "invalid-spelling" := VBool true ]} : FormatField) !! "underline"
     = Some (VStr "1")
  /\ ({[ "CharUnderline" := VStr "10"; "underline" := VStr "1";
         "invalid-spelling" := VBool true ]} : FormatField) !! "invalid-spelling"
     = Some (VBool true).
Proof. repeat split; by vm_compute. Qed.

(** At offset 5 nothing is reported, so the attributes of offset 4 are
    used: the text is bold and not italic, on the run from 5 to 9. *)
Lemma previous_attributes_reused_witness :
  _getFormatFieldAndOffsets (H := exampleExternals) exampleParagraph 5
    = Ok ({[ "CharWeight" := VStr "150"; "CharPosture" := VStr "0";
             "italic" := VBool false; "bold" := VBool true ]}, (5, 9)).
Proof.
  rewrite (previous_attributes_reused (H := exampleExternals)
             exampleParagraph 5 5 9 (0, 5, "CharWeight:150;CharPosture:0"%string));
    [by vm_compute | lia | reflexivity | reflexivity].
Defined.

(** * Properties of JAB_OOTableCell *)

Lemma startswith_app prefix s :
  PyStr.startswith prefix s = true -> exists rest, s = prefix ++ rest.
Proof.
  revert s. induction prefix as [|p prefix IH]; intros s Hs; [by exists s|].
  destruct s as [|c s]; [done|]. simpl in Hs. apply andb_prop in Hs as [Hp Hs].
  apply Ascii.eqb_eq in Hp as ->. destruct (IH _ Hs) as [rest ->]. by exists rest.
Qed.

Lemma startswith_prefix prefix rest : PyStr.startswith prefix (prefix ++ rest) = true.
Proof.
  induction prefix as [|p prefix IH]; [done|]. simpl. by rewrite Ascii.eqb_refl, IH.
Qed.

Lemma slice_5_to_last_middle (a b c d e : ascii) body final :
  PyStr.slice_5_to_last (a :: b :: c :: d :: e :: body ++ [final]) = body.
Proof.
  unfold PyStr.slice_5_to_last. cbn [length]. rewrite length_app. cbn [length].
  replace (S (S (S (S (S (length body + 1))))) - 1)%nat
    with (S (S (S (S (S (length body)))))) by lia.
  cbn [firstn skipn]. by rewrite take_app_length.
Qed.

(** The test on the name never raises: a name that starts with [Cell] has a
    last character but one. *)
Lemma isCellName_returns name :
  exists cell, JAB_OOTableCell.isCellName name = Returned cell.
Proof.
  destruct name as [name|]; [|by eexists]. unfold JAB_OOTableCell.isCellName.
  cbv zeta. destruct (negb (String.eqb name "")); [|by eexists].
  rewrite andb_true_l.
  destruct (PyStr.startswith _ _) eqn:Hs; [|by eexists].
  apply startswith_app in Hs as [rest Hs]. rewrite Hs.
  unfold PyStr.item_from_end. rewrite length_app. simpl length.
  destruct (lookup_lt_is_Some_2 (list_ascii_of_string "Cell" ++ rest)
              (4 + length rest - 2)%nat) as [c Hc].
  { rewrite length_app. simpl. lia. }
  simpl in Hc. simpl. rewrite Hc. by eexists.
Qed.

Lemma forallb_take {A : Type} (p : A -> bool) n (l : list A) :
  forallb p l = true -> forallb p (take n l) = true.
Proof.
  intros Hl. rewrite <- (take_drop n l), forallb_app in Hl.
  by apply andb_prop in Hl as [Hl _].
Qed.

Lemma forallb_drop {A : Type} (p : A -> bool) n (l : list A) :
  forallb p l = true -> forallb p (drop n l) = true.
Proof.
  intros Hl. rewrite <- (take_drop n l), forallb_app in Hl.
  by apply andb_prop in Hl as [_ Hl].
Qed.

(** A label that the guard of [gridCoordStringToNumbers] lets through,
    between [Cell] with one more character and a last character, is found
    again as the coordinates. *)
Lemma cell_name_coordinates separator final label :
  shaped Py.isdigit (list_ascii_of_string label) = true ->
  let name :=
    Some (string_of_list_ascii
            (list_ascii_of_string "Cell" ++ separator :: list_ascii_of_string label
             ++ [final])) in
  JAB_OOTableCell._get_name name = Returned None /\
  JAB_OOTableCell._get_cellCoordsText name = Returned (Some label).
Proof.
  intros Hv name.
  assert (Hcell : JAB_OOTableCell.isCellName name = Returned true).
  { unfold name, JAB_OOTableCell.isCellName. cbv zeta.
    rewrite list_ascii_of_string_of_list_ascii.
    rewrite startswith_prefix. rewrite andb_true_r.
    replace (String.eqb _ "") with false by done.
    unfold shaped in Hv. apply andb_prop in Hv as [_ Hlast].
    destruct (list_ascii_of_string label) as [|c cs] using rev_ind; [done|].
    rewrite last_snoc in Hlast. simpl in Hlast.
    unfold PyStr.item_from_end. simpl negb. cbn [andb].
    replace (list_ascii_of_string "Cell" ++ separator :: (cs ++ [c]) ++ [final])
      with ((list_ascii_of_string "Cell" ++ separator :: cs) ++ [c; final])
      by (by rewrite <- !app_assoc).
    generalize (list_ascii_of_string "Cell" ++ separator :: cs) as pre. intros pre.
    rewrite length_app. cbn [length].
    replace (2 <=? _ + 2)%nat with true by (symmetry; apply Nat.leb_le; lia).
    rewrite lookup_app_r by lia.
    replace (length pre + 2 - 2 - length pre)%nat with 0%nat by lia. simpl.
    by rewrite Hlast. }
  split.
  - unfold JAB_OOTableCell._get_name. by rewrite Hcell.
  - unfold JAB_OOTableCell._get_cellCoordsText. rewrite Hcell. unfold name. simpl.
    do 2 f_equal. rewrite list_ascii_of_string_of_list_ascii.
    etransitivity; [|apply string_of_list_ascii_of_string]. f_equal.
    apply (slice_5_to_last_middle "C" "e" "l" "l" separator).
Qed.

Lemma gridCoordStringToNumbers_guard label :
  gridCoordStringToNumbers label <> Raise ValueError ->
  shaped Py.isdigit (list_ascii_of_string label) = true.
Proof.
  rewrite gridCoordStringToNumbers_shaped. cbv zeta.
  by destruct (shaped Py.isdigit (list_ascii_of_string label)).
Qed.

(** For an ASCII name the row and the column of a cell are found, and no
    exception leaves the two methods: they are the pair that
    [gridCoordStringToNumbers] returns for the coordinates taken from the
    name when these have the shape of a label, and 0 when the name gives no
    coordinates or ill-shaped ones. *)
Theorem JAB_cell_numbers name :
  from_option Py.isascii true name = true ->
  exists cellCoordsText rowNum colNum,
    JAB_OOTableCell._get_cellCoordsText name = Returned cellCoordsText /\
    JAB_OOTableCell._get_rowNumber name = Returned rowNum /\
    JAB_OOTableCell._get_columnNumber name = Returned colNum /\
    match cellCoordsText with
    | Some label =>
        if Spec.valid_label label
        then gridCoordStringToNumbers label = Ok (rowNum, colNum)
        else rowNum = 0 /\ colNum = 0
    | None => rowNum = 0 /\ colNum = 0
    end.
Proof.
  intros Ha.
  unfold JAB_OOTableCell._get_rowNumber, JAB_OOTableCell._get_columnNumber,
    JAB_OOTableCell._get_cellCoordsText.
  destruct (isCellName_returns name) as [cell ->]. cbn [mbind outcome_bind].
  destruct cell; [|by exists None, 0, 0].
  destruct name as [name|]; [|by exists None, 0, 0]. simpl in Ha. simpl.
  set (label := string_of_list_ascii (PyStr.slice_5_to_last (list_ascii_of_string name))).
  assert (Hl : Py.isascii label = true).
  { unfold Py.isascii, label. rewrite list_ascii_of_string_of_list_ascii.
    unfold PyStr.slice_5_to_last. by apply forallb_drop, forallb_take. }
  destruct (Spec.valid_label label) eqn:Hv.
  - destruct (isascii_returns _ Hl Hv) as [[rowNum colNum] Hp].
    exists (Some label), rowNum, colNum. rewrite Hv, Hp. done.
  - exists (Some label), 0, 0.
    rewrite Hv, (gridCoordStringToNumbers_ascii _ Hl), Hv. done.
Qed.

Lemma JAB_cell_numbers_witness :
  exists cellCoordsText rowNum colNum,
    JAB_OOTableCell._get_cellCoordsText (Some "Cell C7.") = Returned cellCoordsText /\
    JAB_OOTableCell._get_rowNumber (Some "Cell C7.") = Returned rowNum /\
    JAB_OOTableCell._get_columnNumber (Some "Cell C7.") = Returned colNum /\
    match cellCoordsText with
    | Some label =>
        if Spec.valid_label label
        then gridCoordStringToNumbers label = Ok (rowNum, colNum)
        else rowNum = 0 /\ colNum = 0
    | None => rowNum = 0 /\ colNum = 0
    end.
Proof. exact (JAB_cell_numbers (Some "Cell C7.") eq_refl). Defined.

(** A cell either keeps its name and has no coordinates, or hides its name
    and has coordinates. *)
Theorem JAB_cell_name_or_coordinates name :
  (JAB_OOTableCell._get_name name = Returned name /\
   JAB_OOTableCell._get_cellCoordsText name = Returned None) \/
  (JAB_OOTableCell._get_name name = Returned None /\
   exists label, name <> None /\
     JAB_OOTableCell._get_cellCoordsText name = Returned (Some label)).
Proof.
  unfold JAB_OOTableCell._get_name, JAB_OOTableCell._get_cellCoordsText.
  destruct (isCellName_returns name) as [cell Hcell]. rewrite Hcell.
  cbn [mbind outcome_bind]. destruct cell; [|by left].
  destruct name as [name|]; [|done]. right. split; [done|]. by eexists.
Qed.

(** A name made of [Cell], one character, a label that
    [gridCoordStringToNumbers] decodes and one more character gives back
    that label as coordinates, and so its row and its column; the name
    itself is hidden. *)
Theorem JAB_cell_name_round_trip separator final label rowNum colNum :
  gridCoordStringToNumbers label = Ok (rowNum, colNum) ->
  let name :=
    Some (string_of_list_ascii
            (list_ascii_of_string "Cell" ++ separator :: list_ascii_of_string label
             ++ [final])) in
  JAB_OOTableCell._get_name name = Returned None /\
  JAB_OOTableCell._get_cellCoordsText name = Returned (Some label) /\
  JAB_OOTableCell._get_rowNumber name = Returned rowNum /\
  JAB_OOTableCell._get_columnNumber name = Returned colNum.
Proof.
  intros Hok name.
  destruct (cell_name_coordinates separator final label) as [Hname Htext].
  { apply gridCoordStringToNumbers_guard. by rewrite Hok. }
  fold name in Hname, Htext. split; [done|]. split; [done|].
  unfold JAB_OOTableCell._get_rowNumber, JAB_OOTableCell._get_columnNumber.
  rewrite Htext. simpl. by rewrite Hok.
Qed.

Lemma JAB_cell_name_round_trip_witness :
  JAB_OOTableCell._get_name (Some "Cell B12.") = Returned None /\
  JAB_OOTableCell._get_cellCoordsText (Some "Cell B12.") = Returned (Some "B12") /\
  JAB_OOTableCell._get_rowNumber (Some "Cell B12.") = Returned 12 /\
  JAB_OOTableCell._get_columnNumber (Some "Cell B12.") = Returned 2.
Proof. exact (JAB_cell_name_round_trip " " "." "B12" 12 2 eq_refl). Defined.

(** A [TypeError] of [gridCoordStringToNumbers] is not caught: the row and
    the column of a cell whose coordinates hold a sharp s before the
    digits raise it, where other ill-formed coordinates give 0. *)
Theorem JAB_cell_numbers_TypeError separator final label :
  gridCoordStringToNumbers label = Raise TypeError ->
  let name :=
    Some (string_of_list_ascii
            (list_ascii_of_string "Cell" ++ separator :: list_ascii_of_string label
             ++ [final])) in
  JAB_OOTableCell._get_rowNumber name = Raised (Builtin TypeError) /\
  JAB_OOTableCell._get_columnNumber name = Raised (Builtin TypeError).
Proof.
  intros Herr name.
  destruct (cell_name_coordinates separator final label) as [_ Htext].
  { apply gridCoordStringToNumbers_guard. by rewrite Herr. }
  fold name in Htext.
  unfold JAB_OOTableCell._get_rowNumber, JAB_OOTableCell._get_columnNumber.
  rewrite Htext. simpl. by rewrite Herr.
Qed.

Lemma JAB_cell_numbers_TypeError_witness :
  JAB_OOTableCell._get_rowNumber
    (Some ("Cell " +:+ sharp_s_label +:+ ".")) = Raised (Builtin TypeError) /\
  JAB_OOTableCell._get_columnNumber
    (Some ("Cell " +:+ sharp_s_label +:+ ".")) = Raised (Builtin TypeError).
Proof. exact (JAB_cell_numbers_TypeError " " "." sharp_s_label eq_refl). Defined.

(** * Properties of SymphonyTextInfo lines and SymphonyText *)

(** When the line the base class reports lies within the story it
    reports, the line and the story length of this class agree as well:
    the character faked for an empty first line is counted in the story
    length; and the line at offset 0 that starts at 0 is never empty. *)
Theorem faked_character_is_in_story super_getLineOffsets super_getStoryLength offset :
  0 <= (super_getLineOffsets offset).1 ->
  (super_getLineOffsets offset).1 <= (super_getLineOffsets offset).2 ->
  (super_getLineOffsets offset).2 <= super_getStoryLength ->
  let line := _getLineOffsets super_getLineOffsets offset in
  0 <= line.1 /\ line.1 <= line.2 /\
  line.2 <= _getStoryLength super_getStoryLength /\
  (offset = 0 -> line.1 = 0 -> line.1 < line.2).
Proof.
  unfold _getLineOffsets, _getStoryLength.
  destruct (super_getLineOffsets offset) as [start end_]. simpl. intros H0 H1 H2.
  destruct (Z.eqb_spec offset 0), (Z.eqb_spec start 0), (Z.eqb_spec end_ 0);
    simpl; lia.
Qed.

Lemma faked_character_is_in_story_witness :
  _getLineOffsets (fun _ => (0, 0)) 0 = (0, 1) /\ _getStoryLength 0 = 1 /\ 0 < 1.
Proof.
  split; [reflexivity|]. split; [reflexivity|].
  destruct (faked_character_is_in_story (fun _ => (0, 0)) 0 0
              ltac:(simpl; lia) ltac:(simpl; lia) ltac:(simpl; lia))
    as (_ & _ & _ & Hline).
  exact (Hline eq_refl eq_refl).
Defined.

(** A heading level written in digits is the whole position info,
    whatever the base class reports; without a heading level, or with an
    empty one, the position info of the base class is returned; a heading
    level that is not a number raises [ValueError]. *)
Theorem heading_level_is_position_info IA2Attributes super_positionInfo :
  (forall level,
     IA2Attributes !! "heading-level" = Some (VStr level) ->
     level <> "" ->
     forallb Spec.is_digit (list_ascii_of_string level) = true ->
     _get_positionInfo IA2Attributes super_positionInfo
       = Ok {[ "level" := Spec.base10 (list_ascii_of_string level) ]}) /\
  (IA2Attributes !! "heading-level" = None \/
   IA2Attributes !! "heading-level" = Some (VStr "") ->
   _get_positionInfo IA2Attributes super_positionInfo = Ok super_positionInfo) /\
  (forall level,
     IA2Attributes !! "heading-level" = Some (VStr level) ->
     level <> "" ->
     raises (Py.int (list_ascii_of_string level)) ->
     _get_positionInfo IA2Attributes super_positionInfo = Raise ValueError).
Proof.
  unfold _get_positionInfo. split; [|split].
  - intros level -> Hne Hd. simpl.
    destruct (String.eqb_spec level ""); [done|]. simpl.
    rewrite int_of_digits; [done| |done].
    intros E. apply Hne. by rewrite <- (string_of_list_ascii_of_string level), E.
  - by intros [-> | ->].
  - intros level -> Hne [e He]. simpl.
    destruct (String.eqb_spec level ""); [done|]. simpl. rewrite He. simpl.
    unfold Py.int in He. by repeat case_match; simplify_eq.
Qed.

Lemma heading_level_is_position_info_witness :
  _get_positionInfo {[ "heading-level" := VStr "2" ]} {[ "level" := 7 ]}
    = Ok {[ "level" := 2 ]}
  /\ _get_positionInfo ∅ {[ "level" := 7 ]} = Ok {[ "level" := 7 ]}
  /\ _get_positionInfo {[ "heading-level" := VStr "two" ]} {[ "level" := 7 ]}
     = Raise ValueError.
Proof.
  split; [|split].
  - apply (proj1 (heading_level_is_position_info _ _) "2"); by vm_compute.
  - apply (proj1 (proj2 (heading_level_is_position_info _ _))). by left.
  - apply (proj2 (proj2 (heading_level_is_position_info _ _)) "two");
      [by vm_compute | done | by exists ValueError].
Defined.

(** ** More examples on the format field *)

Lemma text_position_follows_sign_witness :
  parse (H := exampleExternals) {[ "CharEscapement" := VStr "-33" ]} exampleParagraph 0
    = Ok {[ "CharEscapement" := VStr "-33"; "text-position" := VStr "sub" ]}
  /\ ({[ "CharEscapement" := VStr "-33"; "text-position" := VStr "sub" ]} : FormatField)
       !! "text-position" = Some (VStr "sub").
Proof.
  assert (Hp : parse (H := exampleExternals) {[ "CharEscapement" := VStr "-33" ]}
                 exampleParagraph 0
               = Ok {[ "CharEscapement" := VStr "-33"; "text-position" := VStr "sub" ]}).
  { vm_compute. reflexivity. }
  split; [exact Hp|].
  assert (Hraw : ({[ "CharEscapement" := VStr "-33" ]} : FormatField) !! "CharEscapement"
                 = Some (VStr "-33")).
  { vm_compute. reflexivity. }
  apply (proj1 (text_position_follows_sign _ _ _ _ "-33" (-33) Hraw eq_refl Hp)).
  lia.
Defined.

Lemma link_follows_hyperlink_witness :
  ({[ "CharWeight" := VStr "150"; "bold" := VBool true ]} : FormatField) !! "link" = None.
Proof.
  assert (Hp : parse (H := exampleExternals) {[ "CharWeight" := VStr "150" ]}
                 exampleParagraph 0
               = Ok {[ "CharWeight" := VStr "150"; "bold" := VBool true ]}).
  { vm_compute. reflexivity. }
  exact (link_follows_hyperlink _ _ _ _ Hp).
Defined.

Lemma line_prefix_at_offset_zero_witness :
  parse (H := exampleExternals)
    {[ "Numbering" := VDict {[ "NumberingPrefix" := "1."; "BulletChar" := "*" ]} ]}
    exampleParagraph 0
  = Ok {[ "Numbering" := VDict {[ "NumberingPrefix" := "1."; "BulletChar" := "*" ]};
          "line-prefix" := VStr "1." ]}
  /\ ({[ "Numbering" := VDict {[ "NumberingPrefix" := "1."; "BulletChar" := "*" ]};
         "line-prefix" := VStr "1." ]} : FormatField) !! "line-prefix"
     = Some (VStr "1.").
Proof.
  assert (Hp : parse (H := exampleExternals)
                 {[ "Numbering" := VDict {[ "NumberingPrefix" := "1."; "BulletChar" := "*" ]} ]}
                 exampleParagraph 0
               = Ok {[ "Numbering" := VDict {[ "NumberingPrefix" := "1."; "BulletChar" := "*" ]};
                       "line-prefix" := VStr "1." ]}).
  { vm_compute. reflexivity. }
  split; [exact Hp|].
  assert (Hraw : ({[ "Numbering" := VDict {[ "NumberingPrefix" := "1."; "BulletChar" := "*" ]} ]}
                    : FormatField) !! "Numbering"
                 = Some (VDict {[ "NumberingPrefix" := "1."; "BulletChar" := "*" ]})).
  { vm_compute. reflexivity. }
  refine (proj2 (line_prefix_at_offset_zero _ _ _ _ Hp)
            {[ "NumberingPrefix" := "1."; "BulletChar" := "*" ]} eq_refl Hraw _).
  intros E. apply (f_equal (fun m : gmap string string => m !! "BulletChar")) in E.
  vm_compute in E. discriminate E.
Defined.

Lemma caret_position_needs_focus_witness :
  ({[ "CharWeight" := VStr "150"; "bold" := VBool true ]} : FormatField)
    !! "page-number" = None.
Proof.
  assert (Hp : parse (H := exampleExternals) {[ "CharWeight" := VStr "150" ]}
                 exampleParagraph 0
               = Ok {[ "CharWeight" := VStr "150"; "bold" := VBool true ]}).
  { vm_compute. reflexivity. }
  exact (caret_position_needs_focus _ _ _ _ "page-number" (or_introl eq_refl) Hp).
Defined.

Lemma COM_errors_are_absorbed_witness :
  _getFormatFieldAndOffsets (H := exampleExternals) exampleParagraph 5
    <> Raise COMError.
Proof.
  apply (proj2 (COM_errors_are_absorbed (H := exampleExternals) exampleParagraph 5)).
  intros color. discriminate.
Defined.

Lemma parse_returns_witness :
  returns (parse (H := exampleExternals)
             {[ "CharWeight" := VStr "150"; "CharFontName" := VStr "Liberation Serif" ]}
             exampleParagraph 0).
Proof.
  apply (parse_returns (H := exampleExternals)).
  - intros k v Hk. apply lookup_insert_Some in Hk as [[_ <-]|[_ Hk]]; [by eexists|].
    apply lookup_singleton_Some in Hk as [_ <-]. by eexists.
  - intros s Hs. vm_compute in Hs. discriminate Hs.
  - intros s Hs. vm_compute in Hs. injection Hs as <-. by eexists.
  - intros s Hs. vm_compute in Hs. discriminate Hs.
  - intros s Hs. vm_compute in Hs. discriminate Hs.
  - intros _ s Hs. vm_compute in Hs. discriminate Hs.
Defined.

Lemma color_is_parsed_witness :
  parse (H := exampleColors) {[ "CharColor" := VStr "rgb(255, 0, 0)" ]} exampleParagraph 0
    = Ok {[ "color" := VColor (mkRGB 255 0 0) ]}
  /\ exists rgb,
       RGB_fromString (Externals := exampleColors) (VStr "rgb(255, 0, 0)") = Ok rgb /\
       ({[ "color" := VColor (mkRGB 255 0 0) ]} : FormatField) !! "color"
       = Some (VColor rgb).
Proof.
  assert (Hp : parse (H := exampleColors) {[ "CharColor" := VStr "rgb(255, 0, 0)" ]}
                 exampleParagraph 0
               = Ok {[ "color" := VColor (mkRGB 255 0 0) ]}).
  { vm_compute. reflexivity. }
  split; [exact Hp|].
  exact (color_is_parsed (H := exampleColors) _ _ _ _ Hp).
Defined.

(** * Properties of SymphonyTableCell._get_states *)

(** Membership in the states of a cell, state by state. *)
Lemma cell_states_elem s states IA2Attributes :
  s ∈ SymphonyTableCell._get_states states IA2Attributes <->
    (s ∈ states /\ s <> MULTILINE /\ s <> EDITABLE) \/
    (s = SELECTED /\ FOCUSED ∈ states /\ SELECTABLE ∈ states) \/
    (s = HASFORMULA /\
     exists formula, IA2Attributes !! "Formula" = Some formula /\ truthy formula = true).
Proof.
  unfold SymphonyTableCell._get_states. cbv zeta.
  set (kept := states ∖ {[MULTILINE]} ∖ {[EDITABLE]}).
  assert (Hkept : forall x, x ∈ kept <-> x ∈ states /\ x <> MULTILINE /\ x <> EDITABLE).
  { intros x. unfold kept. rewrite !elem_of_difference, !elem_of_singleton. tauto. }
  set (selected :=
         if bool_decide (SELECTED ∉ kept)
            && bool_decide (({[FOCUSED; SELECTABLE]} : gset State) ⊆ kept)
         then kept ∪ {[SELECTED]} else kept).
  assert (Hsel : forall x, x ∈ selected <->
            x ∈ kept \/ (x = SELECTED /\ FOCUSED ∈ states /\ SELECTABLE ∈ states)).
  { intros x. unfold selected.
    destruct (bool_decide_reflect (SELECTED ∉ kept)) as [Hn|Hn];
      destruct (bool_decide_reflect (({[FOCUSED; SELECTABLE]} : gset State) ⊆ kept))
        as [Hs|Hs]; simpl.
    - rewrite elem_of_union, elem_of_singleton.
      assert (FOCUSED ∈ kept) by (apply Hs; set_solver).
      assert (SELECTABLE ∈ kept) by (apply Hs; set_solver).
      rewrite Hkept in *. tauto.
    - split; [tauto|]. intros [?|(-> & Hf & Hs')]; [done|]. exfalso. apply Hs.
      intros y. rewrite elem_of_union, !elem_of_singleton, Hkept.
      intros [-> | ->]; done.
    - split; [tauto|]. intros [?|(-> & _)]; [done|].
      by destruct (decide (SELECTED ∈ kept)).
    - split; [tauto|]. intros [?|(-> & _)]; [done|].
      by destruct (decide (SELECTED ∈ kept)). }
  clearbody selected kept.
  assert (Hf : (exists formula, IA2Attributes !! "Formula" = Some formula
                                /\ truthy formula = true)
               <-> match IA2Attributes !! "Formula" with
                   | Some formula => truthy formula = true
                   | None => False
                   end).
  { destruct (IA2Attributes !! "Formula") as [formula|].
    - split; [by intros (f & [= <-] & Hf) | by exists formula].
    - split; [by intros (f & Hf & _) | done]. }
  rewrite Hf. clear Hf.
  destruct (IA2Attributes !! "Formula") as [formula|]; [destruct (truthy formula)|].
  - rewrite elem_of_union, elem_of_singleton, Hsel, Hkept. tauto.
  - rewrite Hsel, Hkept. intuition discriminate.
  - rewrite Hsel, Hkept. tauto.
Qed.

(** The states of a cell never hold [MULTILINE] or [EDITABLE]; they hold
    [SELECTED] exactly when the cell was selected or was focused and
    selectable, and [HASFORMULA] exactly when it had that state or has a
    non-empty [Formula] attribute; every other state is as the base class
    gives it. *)
Theorem cell_states_membership states IA2Attributes :
  let cellStates := SymphonyTableCell._get_states states IA2Attributes in
  (MULTILINE ∉ cellStates) /\ (EDITABLE ∉ cellStates) /\
  (SELECTED ∈ cellStates <->
     SELECTED ∈ states \/ (FOCUSED ∈ states /\ SELECTABLE ∈ states)) /\
  (HASFORMULA ∈ cellStates <->
     HASFORMULA ∈ states \/
     exists formula, IA2Attributes !! "Formula" = Some formula /\ truthy formula = true) /\
  (FOCUSED ∈ cellStates <-> FOCUSED ∈ states) /\
  (SELECTABLE ∈ cellStates <-> SELECTABLE ∈ states) /\
  (forall n, OtherState n ∈ cellStates <-> OtherState n ∈ states).
Proof.
  cbv zeta.
  assert (Hno : forall s, (s = MULTILINE \/ s = EDITABLE) ->
                  s ∉ SymphonyTableCell._get_states states IA2Attributes).
  { intros s Hs. rewrite cell_states_elem. intros [(_ & ? & ?)|[(-> & _)|(-> & _)]];
      destruct Hs; congruence. }
  split; [apply Hno; by left|]. split; [apply Hno; by right|].
  split; [|split; [|split; [|split; [|intros n]]]]; rewrite cell_states_elem;
    intuition (try congruence; try discriminate).
Qed.

Lemma cell_states_membership_witness :
  SELECTED ∈ SymphonyTableCell._get_states {[FOCUSED; SELECTABLE; EDITABLE]} ∅.
Proof.
  apply (proj1 (proj2 (proj2 (cell_states_membership {[FOCUSED; SELECTABLE; EDITABLE]} ∅)))).
  right. split; rewrite !elem_of_union, !elem_of_singleton; auto.
Defined.

(** Computing the states again from the result changes nothing. *)
Theorem cell_states_idempotent states IA2Attributes :
  SymphonyTableCell._get_states
    (SymphonyTableCell._get_states states IA2Attributes) IA2Attributes
  = SymphonyTableCell._get_states states IA2Attributes.
Proof.
  apply set_eq. intros s. rewrite !cell_states_elem.
  intuition (try congruence).
Qed.

(** * Properties of SymphonyTable.announce_selected_cells *)

Lemma spoken_print remembered w line :
  spoken {| last_selection := remembered; output := output w ++ [Print line] |}
  = spoken w.
Proof. unfold spoken. simpl. rewrite omap_app. simpl. apply app_nil_r. Qed.

(** Asking a cell for its name prints but neither speaks nor remembers; the
    answer does not depend on the world. *)
Lemma cellName_run which cell w :
  exists w',
    SymphonyTable.cellName which cell w
      = (lift (call (cell_name cell)), w') /\
    last_selection w' = last_selection w /\ spoken w' = spoken w.
Proof.
  unfold SymphonyTable.cellName, cell_name.
  cbv [mbind M_bind mret M_ret com raise print option_bind].
  destruct (SymphonyTable.tableCell cell) as [tc|]; [|by exists w].
  destruct (SymphonyTable.columnIndex tc) as [column|]; [|by exists w].
  destruct (SymphonyTable.rowIndex tc) as [row|]; [|by exists w].
  eexists. split.
  { by destruct (SymphonyTable.accName tc). }
  split; [reflexivity | apply spoken_print].
Qed.

(** What a run does to the world. *)
Lemma announce_run self w :
  exists w',
    SymphonyTable.announce_selected_cells self w
      = (_ ← selection_names self; Returned tt, w') /\
    match selection_names self with
    | Raised _ => last_selection w' = last_selection w /\ spoken w' = spoken w
    | Returned None => w' = w
    | Returned (Some names) =>
        last_selection w' = Some names /\
        spoken w' = spoken w ++
          (if decide (last_selection w = Some names) then []
           else [selection_message names])
    end.
Proof.
  unfold SymphonyTable.announce_selected_cells, selection_names.
  destruct (SymphonyTable.IAccessibleTable2Object self) as [table|]; [|by exists w].
  cbv [mbind M_bind mret M_ret com raise call lift outcome_bind PyStr.item
       get_last_selection speakMessage set_last_selection].
  destruct (SymphonyTable.selectedCells table) as [[cells n]|]; [|by exists w].
  destruct (SymphonyTable.nSelectedCells table) as [again|]; [|by exists w].
  cbn [fst snd].
  destruct (negb (n =? again)); [by exists w|].
  destruct (n >? 1); [|by exists w].
  destruct (cells !! Z.to_nat 0) as [first_cell|]; [|by exists w].
  destruct (cellName_run "first_cell" first_cell w) as (w1 & -> & Hl1 & Hs1).
  destruct (cell_name first_cell) as [first_cell_name|]; [|by exists w1].
  cbv [call lift].
  destruct (cells !! Z.to_nat (n - 1)) as [last_cell|]; [|by exists w1].
  destruct (cellName_run "last_cell" last_cell w1) as (w2 & -> & Hl2 & Hs2).
  destruct (cell_name last_cell) as [last_cell_name|];
    [|exists w2; split; [done|]; split; congruence].
  cbv [call lift]. rewrite Hl2, Hl1.
  destruct (decide (last_selection w = Some (first_cell_name, last_cell_name))) as [E|E].
  - rewrite bool_decide_eq_true_2 by done. cbn [negb]. exists w2.
    split; [done|]. split; [congruence|]. rewrite app_nil_r. congruence.
  - rewrite bool_decide_eq_false_2 by done. cbn [negb]. eexists. split; [reflexivity|].
    cbn [last_selection]. split; [done|]. unfold spoken at 1. cbn [output].
    rewrite omap_app. cbn [omap]. unfold spoken in Hs1, Hs2. by rewrite Hs2, Hs1.
Qed.

Lemma announce_returned self w w' :
  SymphonyTable.announce_selected_cells self w = (Returned tt, w') ->
  exists names, selection_names self = Returned names /\
    match names with
    | None => w' = w
    | Some names =>
        last_selection w' = Some names /\
        spoken w' = spoken w ++
          (if decide (last_selection w = Some names) then []
           else [selection_message names])
    end.
Proof.
  intros Hrun. destruct (announce_run self w) as (w1 & Hw1 & Hcases).
  rewrite Hrun in Hw1. destruct (selection_names self) as [names|e]; [|done].
  injection Hw1 as <-. by exists names.
Qed.

(** A call that raises has spoken nothing and remembered nothing. *)
Theorem announce_failure_is_silent self w e w' :
  SymphonyTable.announce_selected_cells self w = (Raised e, w') ->
  last_selection w' = last_selection w /\ spoken w' = spoken w.
Proof.
  intros Hrun. destruct (announce_run self w) as (w1 & Hw1 & Hcases).
  rewrite Hrun in Hw1. destruct (selection_names self) as [names|e']; [done|].
  by injection Hw1 as _ <-.
Qed.

Lemma announce_failure_is_silent_witness :
  SymphonyTable.announce_selected_cells miscountedRange silentWorld
    = (Raised AssertionError, silentWorld)
  /\ last_selection silentWorld = last_selection silentWorld
  /\ spoken silentWorld = spoken silentWorld.
Proof.
  split; [reflexivity|].
  exact (announce_failure_is_silent miscountedRange silentWorld AssertionError
           silentWorld eq_refl).
Defined.

(** A call that returns either leaves what was spoken and remembered as it
    was, or has spoken one message, which names the first and the last cell
    of a selection other than the one remembered, and remembers that
    selection. *)
Theorem announce_speaks_new_selection self w w' :
  SymphonyTable.announce_selected_cells self w = (Returned tt, w') ->
  (last_selection w' = last_selection w /\ spoken w' = spoken w) \/
  (exists first_cell_name last_cell_name,
     last_selection w <> Some (first_cell_name, last_cell_name) /\
     last_selection w' = Some (first_cell_name, last_cell_name) /\
     spoken w' = spoken w ++
       ["selected cells: " +:+ PyStr.of_name first_cell_name +:+ " to "
        +:+ PyStr.of_name last_cell_name]).
Proof.
  intros Hrun. destruct (announce_returned _ _ _ Hrun) as ([[a b]|] & _ & Hcases).
  - destruct Hcases as [Hl Hs].
    destruct (decide (last_selection w = Some (a, b))) as [E|E].
    + left. rewrite app_nil_r in Hs. split; congruence.
    + right. by exists a, b.
  - left. by subst w'.
Qed.

Lemma announce_speaks_new_selection_witness :
  spoken (SymphonyTable.announce_selected_cells exampleRange silentWorld).2
    = ["selected cells: A1 to B2"]
  /\ last_selection (SymphonyTable.announce_selected_cells exampleRange silentWorld).2
     = Some (Some "A1", Some "B2").
Proof.
  destruct (announce_speaks_new_selection exampleRange silentWorld
              (SymphonyTable.announce_selected_cells exampleRange silentWorld).2
              eq_refl) as [[Hl Hs]|(a & b & Hne & Hl & Hs)].
  - discriminate Hs.
  - split; reflexivity.
Defined.

(** Announcing again right away speaks nothing and remembers the same. *)
Theorem announce_twice_speaks_once self w w1 :
  SymphonyTable.announce_selected_cells self w = (Returned tt, w1) ->
  exists w2,
    SymphonyTable.announce_selected_cells self w1 = (Returned tt, w2) /\
    spoken w2 = spoken w1 /\ last_selection w2 = last_selection w1.
Proof.
  intros Hrun. destruct (announce_returned _ _ _ Hrun) as (names & Hnames & Hcases).
  destruct (announce_run self w1) as (w2 & Hw2 & Hcases2).
  rewrite Hnames in Hw2, Hcases2. exists w2. split; [done|].
  destruct names as [names|].
  - destruct Hcases as [Hl _]. destruct Hcases2 as [Hl2 Hs2].
    rewrite decide_True in Hs2 by done. rewrite app_nil_r in Hs2.
    split; congruence.
  - by subst w2.
Qed.

Lemma announce_twice_speaks_once_witness :
  exists w2,
    SymphonyTable.announce_selected_cells exampleRange
      (SymphonyTable.announce_selected_cells exampleRange silentWorld).2
      = (Returned tt, w2) /\
    spoken w2 = ["selected cells: A1 to B2"].
Proof.
  destruct (announce_twice_speaks_once exampleRange silentWorld
              (SymphonyTable.announce_selected_cells exampleRange silentWorld).2
              eq_refl) as (w2 & Hrun & Hs & _).
  exists w2. split; [exact Hrun|]. exact Hs.
Defined.

(** After a selection has been announced, the event [selection] makes the
    next call announce it again. *)
Theorem announce_again_after_selection_event self w w1 message :
  SymphonyTable.announce_selected_cells self w = (Returned tt, w1) ->
  spoken w1 = spoken w ++ [message] ->
  exists w2 w3,
    event_selection (mret tt) w1 = (Returned tt, w2) /\
    SymphonyTable.announce_selected_cells self w2 = (Returned tt, w3) /\
    spoken w3 = spoken w1 ++ [message].
Proof.
  intros Hrun Hspoke.
  destruct (announce_returned _ _ _ Hrun) as (names & Hnames & Hcases).
  destruct names as [names|].
  2:{ subst w1. apply (f_equal (@length _)) in Hspoke.
      rewrite length_app in Hspoke. simpl in Hspoke. lia. }
  destruct Hcases as [Hl Hs]. rewrite Hs in Hspoke. apply app_inv_head in Hspoke.
  destruct (decide (last_selection w = Some names)); [done|].
  injection Hspoke as <-.
  eexists. destruct (announce_run self
    {| last_selection := None; output := output w1 ++ [Print "SELECTION"] |})
    as (w3 & Hw3 & Hcases3).
  rewrite Hnames in Hw3, Hcases3. exists w3. split; [reflexivity|]. split; [done|].
  destruct Hcases3 as [_ Hs3]. rewrite Hs3, spoken_print.
  by rewrite decide_False by done.
Qed.

Lemma announce_again_after_selection_event_witness :
  exists w2 w3,
    event_selection (mret tt)
      (SymphonyTable.announce_selected_cells exampleRange silentWorld).2
      = (Returned tt, w2) /\
    SymphonyTable.announce_selected_cells exampleRange w2 = (Returned tt, w3) /\
    spoken w3 = ["selected cells: A1 to B2"; "selected cells: A1 to B2"].
Proof.
  exact (announce_again_after_selection_event exampleRange silentWorld
           (SymphonyTable.announce_selected_cells exampleRange silentWorld).2
           "selected cells: A1 to B2" eq_refl eq_refl).
Defined.

(** Without an [IAccessibleTable2] object, and with at most one cell
    selected, the call returns and leaves the world as it is; when the two
    counts of selected cells differ it raises [AssertionError], again with
    the world as it is. *)
Theorem announce_nothing_to_say self w :
  (SymphonyTable.IAccessibleTable2Object self = None ->
   SymphonyTable.announce_selected_cells self w = (Returned tt, w)) /\
  (forall table cells count,
     SymphonyTable.IAccessibleTable2Object self = Some table ->
     SymphonyTable.selectedCells table = Some (cells, count) ->
     SymphonyTable.nSelectedCells table = Some count ->
     count <= 1 ->
     SymphonyTable.announce_selected_cells self w = (Returned tt, w)) /\
  (forall table cells count again,
     SymphonyTable.IAccessibleTable2Object self = Some table ->
     SymphonyTable.selectedCells table = Some (cells, count) ->
     SymphonyTable.nSelectedCells table = Some again ->
     count <> again ->
     SymphonyTable.announce_selected_cells self w = (Raised AssertionError, w)).
Proof.
  unfold SymphonyTable.announce_selected_cells. split; [|split].
  - by intros ->.
  - intros table cells count -> Hc Hn Hle.
    cbv [mbind M_bind mret M_ret com raise]. rewrite Hc, Hn. cbn [fst snd].
    rewrite Z.eqb_refl. cbn [negb].
    by destruct (Z.gtb_spec count 1); [lia|].
  - intros table cells count again -> Hc Hn Hne.
    cbv [mbind M_bind mret M_ret com raise]. rewrite Hc, Hn. cbn [fst snd].
    by destruct (Z.eqb_spec count again).
Qed.

Lemma announce_nothing_to_say_witness :
  SymphonyTable.announce_selected_cells miscountedRange silentWorld
    = (Raised AssertionError, silentWorld).
Proof.
  refine (proj2 (proj2 (announce_nothing_to_say miscountedRange silentWorld))
            _ _ 2 3 eq_refl eq_refl eq_refl _).
  lia.
Defined.

(** * Properties of AppModule *)

Ltac split_ifs :=
  repeat match goal with
         | |- context [if ?b then _ else _] => destruct b eqn:?
         end.

(** The classes given are all kept, in their order, behind the classes
    inserted; at most two classes are inserted, and they are classes of
    this module. *)
Theorem overlay_classes_are_prepended obj clsList :
  exists inserted,
    chooseNVDAObjectOverlayClasses obj clsList = inserted ++ clsList /\
    (length inserted <= 2)%nat /\
    Forall (fun cls => forall n, cls <> Cls.Other n) inserted.
Proof.
  unfold chooseNVDAObjectOverlayClasses. cbv zeta.
  repeat case_bool_decide; split_ifs; try congruence; try discriminate;
    first [ exists []; split; [reflexivity|]; split; [simpl; lia|];
            repeat (apply Forall_cons_2; [intros ?; discriminate|]); apply Forall_nil_2
          | eexists [_]; split; [reflexivity|]; split; [simpl; lia|];
            repeat (apply Forall_cons_2; [intros ?; discriminate|]); apply Forall_nil_2
          | eexists [_; _]; split; [reflexivity|]; split; [simpl; lia|];
            repeat (apply Forall_cons_2; [intros ?; discriminate|]); apply Forall_nil_2 ].
Qed.

(** An object whose window class is none of the three of the office
    suite gets no class. *)
Theorem overlay_classes_outside_office obj clsList :
  in_strings (windowClassName obj) ["SALTMPSUBFRAME"; "SALSUBFRAME"; "SALFRAME"] = false ->
  chooseNVDAObjectOverlayClasses obj clsList = clsList.
Proof.
  intros Hw. unfold chooseNVDAObjectOverlayClasses. cbv zeta.
  rewrite Hw, andb_false_r.
  unfold in_strings in Hw. simpl in Hw.
  apply orb_false_elim in Hw as [_ Hw]. apply orb_false_elim in Hw as [_ Hw].
  apply orb_false_elim in Hw as [Hw _]. by rewrite Hw, andb_false_r.
Qed.

Lemma overlay_classes_outside_office_witness :
  chooseNVDAObjectOverlayClasses
    {| isIAccessible := true; isJAB := false; role := PARAGRAPH;
       windowClassName := "Notepad"; hasIAccessibleTextObject := true;
       parentRole := None; description := None; treeInterceptorClass := None |}
    [Cls.Other 1]
  = [Cls.Other 1].
Proof. apply overlay_classes_outside_office. reflexivity. Defined.

(** In a window of the office suite an IAccessible paragraph gets
    [SymphonyParagraph] first, followed by [SymphonyText] when it has a text
    object; a table cell gets [SymphonyTableCell] and never [SymphonyText],
    with or without a text object. *)
Theorem overlay_classes_of_paragraph_and_cell obj clsList :
  isIAccessible obj = true ->
  in_strings (windowClassName obj) ["SALTMPSUBFRAME"; "SALSUBFRAME"; "SALFRAME"] = true ->
  (role obj = PARAGRAPH ->
   chooseNVDAObjectOverlayClasses obj clsList =
     Cls.SymphonyParagraph ::
       (if hasIAccessibleTextObject obj then Cls.SymphonyText :: clsList else clsList)) /\
  (role obj = TABLECELL ->
   chooseNVDAObjectOverlayClasses obj clsList = Cls.SymphonyTableCell :: clsList).
Proof.
  intros Hi Hw. unfold chooseNVDAObjectOverlayClasses. cbv zeta.
  rewrite Hi, Hw. cbn [andb]. split; intros ->; repeat case_bool_decide; try done;
    cbn [orb]; by destruct (isJAB obj && _).
Qed.

Lemma overlay_classes_of_paragraph_and_cell_witness :
  chooseNVDAObjectOverlayClasses exampleParagraphObject [Cls.Other 1]
  = [Cls.SymphonyParagraph; Cls.SymphonyText; Cls.Other 1].
Proof.
  exact (proj1 (overlay_classes_of_paragraph_and_cell exampleParagraphObject
                  [Cls.Other 1] eq_refl eq_refl) eq_refl).
Defined.

(** The initialisation field by field. *)
Lemma event_NVDAObject_init_fields obj :
  let role' :=
    if isJAB obj && String.eqb (windowClassName obj) "SALFRAME"
       && bool_decide (role obj = CANVAS)
    then DOCUMENT else role obj in
  let document :=
    in_strings (windowClassName obj) ["SALTMPSUBFRAME"; "SALFRAME"]
    && (bool_decide (role' = DOCUMENT) || bool_decide (role' = TEXTFRAME))
    && match description obj with Some d => negb (String.eqb d "") | None => false end in
  event_NVDAObject_init obj =
    {| isIAccessible := isIAccessible obj; isJAB := isJAB obj;
       role := role';
       windowClassName := windowClassName obj;
       hasIAccessibleTextObject := hasIAccessibleTextObject obj;
       parentRole := parentRole obj;
       description := if document then None else description obj;
       treeInterceptorClass :=
         if document then Some CompoundDocument else treeInterceptorClass obj |}.
Proof.
  destruct obj as [ia jab r w t p d i]. unfold event_NVDAObject_init.
  cbn [isIAccessible isJAB role windowClassName hasIAccessibleTextObject parentRole
       description treeInterceptorClass].
  destruct (jab && String.eqb w "SALFRAME" && bool_decide (r = CANVAS));
    cbn [isIAccessible isJAB role windowClassName hasIAccessibleTextObject parentRole
         description treeInterceptorClass];
    by destruct (in_strings w ["SALTMPSUBFRAME"; "SALFRAME"] && _ && _).
Qed.

(** Initialising an object a second time changes nothing. *)
Theorem event_NVDAObject_init_idempotent obj :
  event_NVDAObject_init (event_NVDAObject_init obj) = event_NVDAObject_init obj.
Proof.
  rewrite (event_NVDAObject_init_fields (event_NVDAObject_init obj)).
  rewrite (event_NVDAObject_init_fields obj).
  cbn [isIAccessible isJAB role windowClassName hasIAccessibleTextObject parentRole
       description treeInterceptorClass].
  destruct obj as [ia jab r w t p d i].
  cbn [isIAccessible isJAB role windowClassName hasIAccessibleTextObject parentRole
       description treeInterceptorClass].
  generalize (String.eqb w "SALFRAME") as sal.
  generalize (in_strings w ["SALTMPSUBFRAME"; "SALFRAME"]) as inw.
  intros inw sal.
  destruct (jab && sal && bool_decide (r = CANVAS)) eqn:E1.
  - replace (jab && sal && bool_decide (DOCUMENT = CANVAS)) with false
      by (by rewrite andb_false_r).
    rewrite (bool_decide_eq_true_2 (DOCUMENT = DOCUMENT)) by done.
    cbn [orb]. rewrite !andb_true_r.
    destruct inw; cbn [andb]; [|done].
    destruct d as [d|]; [|done]. destruct (negb (String.eqb d "")) eqn:Ed; simpl; rewrite ?Ed; done.
  - rewrite E1.
    destruct (inw && (bool_decide (r = DOCUMENT) || bool_decide (r = TEXTFRAME))
              && match d with Some d0 => negb (String.eqb d0 "") | None => false end)
      eqn:E2; [|by rewrite E2].
    by rewrite andb_false_r.
Qed.

(** A canvas of the Java access bridge in a [SALFRAME] window becomes a
    document, and the second test sees it as one: with a description it
    loses the description and gets [CompoundDocument] as tree
    interceptor. *)
Theorem canvas_becomes_compound_document obj text :
  isJAB obj = true -> windowClassName obj = "SALFRAME" -> role obj = CANVAS ->
  description obj = Some text -> text <> "" ->
  role (event_NVDAObject_init obj) = DOCUMENT /\
  description (event_NVDAObject_init obj) = None /\
  treeInterceptorClass (event_NVDAObject_init obj) = Some CompoundDocument.
Proof.
  destruct obj as [ia jab r w t p d i]. simpl. intros -> -> -> -> Hne.
  unfold event_NVDAObject_init. simpl.
  by destruct (String.eqb_spec text "").
Qed.

Lemma canvas_becomes_compound_document_witness :
  role (event_NVDAObject_init exampleCanvas) = DOCUMENT /\
  description (event_NVDAObject_init exampleCanvas) = None /\
  treeInterceptorClass (event_NVDAObject_init exampleCanvas) = Some CompoundDocument.
Proof.
  apply (canvas_becomes_compound_document exampleCanvas "Untitled 1 - Writer");
    [reflexivity | reflexivity | reflexivity | reflexivity | discriminate].
Defined.

(** After the initialisation no document or text frame of a
    [SALTMPSUBFRAME] or [SALFRAME] window has a description left; what
    identifies the object (its classes, window class, text object, parent)
    is never changed. *)
Theorem documents_have_no_description obj :
  let obj' := event_NVDAObject_init obj in
  (in_strings (windowClassName obj') ["SALTMPSUBFRAME"; "SALFRAME"] = true ->
   role obj' = DOCUMENT \/ role obj' = TEXTFRAME ->
   description obj' = None \/ description obj' = Some "") /\
  isIAccessible obj' = isIAccessible obj /\ isJAB obj' = isJAB obj /\
  windowClassName obj' = windowClassName obj /\
  hasIAccessibleTextObject obj' = hasIAccessibleTextObject obj /\
  parentRole obj' = parentRole obj.
Proof.
  cbv zeta. rewrite (event_NVDAObject_init_fields obj).
  cbn [isIAccessible isJAB role windowClassName hasIAccessibleTextObject parentRole
       description treeInterceptorClass].
  split; [|done]. intros Hw Hr. rewrite Hw.
  assert (Hd : bool_decide
                 ((if isJAB obj && String.eqb (windowClassName obj) "SALFRAME"
                      && bool_decide (role obj = CANVAS)
                   then DOCUMENT else role obj) = DOCUMENT)
               || bool_decide
                    ((if isJAB obj && String.eqb (windowClassName obj) "SALFRAME"
                         && bool_decide (role obj = CANVAS)
                      then DOCUMENT else role obj) = TEXTFRAME) = true).
  { destruct Hr as [Hr|Hr]; rewrite Hr; [done|].
    rewrite (bool_decide_eq_true_2 (TEXTFRAME = TEXTFRAME)) by done.
    apply orb_true_r. }
  rewrite Hd. cbn [andb].
  destruct (description obj) as [d|]; [|by left].
  destruct (String.eqb_spec d ""); subst; cbn [negb]; auto.
Qed.

Lemma documents_have_no_description_witness :
  description (event_NVDAObject_init exampleCanvas) = None \/
  description (event_NVDAObject_init exampleCanvas) = Some "".
Proof.
  apply (proj1 (documents_have_no_description exampleCanvas));
    [reflexivity | left; reflexivity].
Defined.

(** * Distinct column letters give distinct columns *)

Lemma numeral26_snoc prefix c :
  Spec.numeral26 (prefix ++ [c]) = 26 * Spec.numeral26 prefix + Spec.letterValue c.
Proof. unfold Spec.numeral26. by rewrite fold_left_app. Qed.

Lemma numeral26_letters_nonneg prefix :
  forallb Spec.is_letter prefix = true -> 0 <= Spec.numeral26 prefix.
Proof.
  intros Hl. rewrite <- bijective26_numeral26. unfold Spec.bijective26.
  apply weighted_letters_nonneg. by rewrite forallb_rev.
Qed.

Lemma letterValue_upper c d :
  Spec.is_letter c = true -> Spec.is_letter d = true ->
  Spec.letterValue c = Spec.letterValue d -> Py.upper c = Py.upper d.
Proof. intros Hc Hd E. by rewrite (upper_letter _ Hc), (upper_letter _ Hd), E. Qed.

Lemma numeral26_inj prefix prefix' :
  forallb Spec.is_letter prefix = true -> forallb Spec.is_letter prefix' = true ->
  Spec.numeral26 prefix = Spec.numeral26 prefix' ->
  map Py.upper prefix = map Py.upper prefix'.
Proof.
  revert prefix'. induction prefix as [|c prefix IH] using rev_ind; intros prefix' Hl Hl' E.
  - destruct prefix' as [|d prefix'] using rev_ind; [done|].
    rewrite numeral26_snoc in E. rewrite forallb_app in Hl'.
    apply andb_prop in Hl' as [Hp Hd]. simpl in Hd. rewrite andb_true_r in Hd.
    apply letterValue_letter in Hd. apply numeral26_letters_nonneg in Hp.
    change (Spec.numeral26 []) with 0 in E. lia.
  - rewrite forallb_app in Hl. apply andb_prop in Hl as [Hp Hc].
    simpl in Hc. rewrite andb_true_r in Hc. pose proof (letterValue_letter _ Hc).
    rewrite numeral26_snoc in E.
    destruct prefix' as [|d prefix' _] using rev_ind.
    + apply numeral26_letters_nonneg in Hp. change (Spec.numeral26 []) with 0 in E. lia.
    + rewrite forallb_app in Hl'. apply andb_prop in Hl' as [Hp' Hd].
      simpl in Hd. rewrite andb_true_r in Hd. pose proof (letterValue_letter _ Hd).
      rewrite numeral26_snoc in E.
      assert (Spec.numeral26 prefix = Spec.numeral26 prefix' /\
              Spec.letterValue c = Spec.letterValue d) as [En Ev] by lia.
      rewrite !map_app, (IH _ Hp Hp' En). simpl. f_equal. f_equal.
      by apply letterValue_upper.
Qed.

(** Two labels whose characters before the digits are letters and that
    give the same column have the same letters, up to case. *)
Theorem same_column_same_letters label label' rowNum rowNum' colNum :
  forallb Spec.is_letter (Spec.letter_prefix (list_ascii_of_string label)) = true ->
  forallb Spec.is_letter (Spec.letter_prefix (list_ascii_of_string label')) = true ->
  gridCoordStringToNumbers label = Ok (rowNum, colNum) ->
  gridCoordStringToNumbers label' = Ok (rowNum', colNum) ->
  map Py.upper (Spec.letter_prefix (list_ascii_of_string label))
  = map Py.upper (Spec.letter_prefix (list_ascii_of_string label')).
Proof.
  intros Hl Hl' Hok Hok'.
  destruct (gridCoordStringToNumbers_Ok _ _ _ Hok) as (_ & _ & Hcol).
  destruct (gridCoordStringToNumbers_Ok _ _ _ Hok') as (_ & _ & Hcol').
  rewrite colLoop_letters in Hcol, Hcol' by (by rewrite forallb_rev).
  apply numeral26_inj; [done|done|].
  rewrite <- !bijective26_numeral26. unfold Spec.bijective26.
  injection Hcol as Hcol. injection Hcol' as Hcol'. lia.
Qed.

Lemma same_column_same_letters_witness :
  map Py.upper (Spec.letter_prefix (list_ascii_of_string "ab7"))
  = map Py.upper (Spec.letter_prefix (list_ascii_of_string "AB12")).
Proof.
  exact (same_column_same_letters "ab7" "AB12" 7 12 28 eq_refl eq_refl eq_refl eq_refl).
Defined.
